(** * CRMBLR voice assistant: dispatch logic and the mood endpoint

    A shallow embedding of the voice-command pipeline of the web
    application (the [VoiceAssistant] component) and of the
    [POST /mood] proxy route, with the properties of the specification
    stated and settled against it; then of the other proxy routes, the
    donations page and the workspaces page, with further properties of
    the code.

    Conventions of the embedding.
    - A JavaScript string is a Rocq [string]; each [ascii] stands for one
      UTF-16 code unit below 256 (the Latin-1 range), on which
      [toLowerCase], [trim], [includes], [startsWith] and [split] are
      written out as ECMAScript defines them.
    - React state and refs are the fields of one [Session] record, passed
      explicitly.  A ref is read as it stands; a state variable is a
      constant of the render that created the function reading it.  So
      a function that reads state takes two sessions: [cl], the render
      its closure belongs to, and [st], the session its setters and
      refs act on.  [processVoiceCommand env st] is the call made from
      the render of [st] itself, [processVoiceCommandIn env cl st] the
      call made from any render (lemma [process_in_as_own_render]
      relates the two); the handler of the room's data
      messages and the handler of the recogniser, which the component
      registers once and keeps, take the render that registered them.
    - What a handler asks of the browser (network calls, timers, audio,
      recognition) is returned as a list of [Effect]s; what the browser
      answers is an argument of the function that continues.  An
      [await] on a proxy query is taken in one step with its answer.
    - Console output is left out, but for the line that opens
      [fallbackSpeak], kept as the effect [FallbackLog] so that every
      entry into the browser fallback shows in the trace.
    - Times are milliseconds in [Z]; a recognition confidence is a
      rational, compared with the double nearest to 0.8; a donation
      amount is an integer, printed as [toLocaleString] does in the
      en-US locale. *)

From Stdlib Require Import Bool List String Ascii ZArith NArith QArith Lia.
From Stdlib Require Import DecimalString.
Import ListNotations.

Local Open Scope string_scope.
Local Open Scope Z_scope.

(** ** JavaScript strings *)

Module JsString.

(** Code unit of a character. *)
Definition code (c : ascii) : N := N_of_ascii c.

Definition between (lo hi n : N) : bool := ((lo <=? n) && (n <=? hi))%N.

(** [String.prototype.toLowerCase] on one code unit below 256: the
    letters A-Z and the upper-case letters of Latin-1 (all of
    0xC0-0xDE but the multiplication sign 0xD7) move up by 32. *)
Definition lowerChar (c : ascii) : ascii :=
  let n := code c in
  if between 65 90 n || between 192 214 n || between 216 222 n
  then ascii_of_N (n + 32) else c.

Fixpoint toLowerCase (s : string) : string :=
  match s with
  | EmptyString => EmptyString
  | String c s' => String (lowerChar c) (toLowerCase s')
  end.

(** White space and line terminators below 256, as [trim] strips them:
    TAB, LF, VT, FF, CR, SP and NBSP. *)
Definition isWhite (c : ascii) : bool :=
  let n := code c in between 9 13 n || (n =? 32)%N || (n =? 160)%N.

Fixpoint trimStart (s : string) : string :=
  match s with
  | EmptyString => EmptyString
  | String c s' => if isWhite c then trimStart s' else s
  end.

Fixpoint trimEnd (s : string) : string :=
  match s with
  | EmptyString => EmptyString
  | String c s' =>
      match trimEnd s' with
      | EmptyString => if isWhite c then EmptyString else String c EmptyString
      | t => String c t
      end
  end.

Definition trim (s : string) : string := trimEnd (trimStart s).

(** [s.startsWith(p)]. *)
Fixpoint startsWith (p s : string) : bool :=
  match p, s with
  | EmptyString, _ => true
  | String _ _, EmptyString => false
  | String a p', String b s' => Ascii.eqb a b && startsWith p' s'
  end.

(** [s.includes(sub)]: [sub] occurs at some position of [s]. *)
Fixpoint includes (sub s : string) : bool :=
  startsWith sub s ||
  match s with
  | EmptyString => false
  | String _ s' => includes sub s'
  end.

(** [s.split(sep)] for a separator of one character. *)
Fixpoint split (sep : ascii) (s : string) : list string :=
  match s with
  | EmptyString => [EmptyString]
  | String c s' =>
      if Ascii.eqb c sep then EmptyString :: split sep s'
      else match split sep s' with
           | h :: t => String c h :: t
           | [] => [String c EmptyString]
           end
  end.

(** [arr.some(p)] and [arr.includes(x)] on arrays of strings. *)
Definition some {A} (p : A -> bool) (l : list A) : bool := existsb p l.
Definition arrayIncludes (x : string) (l : list string) : bool :=
  existsb (String.eqb x) l.

(** The words of a string: its maximal runs of characters that are not
    white space.  [countWords inWord s] counts the words that start in
    [s], given whether the character before [s] belonged to a word. *)
Fixpoint countWords (inWord : bool) (s : string) : nat :=
  match s with
  | EmptyString => 0
  | String c s' =>
      if isWhite c then countWords false s'
      else (if inWord then 0 else 1) + countWords true s'
  end%nat.

Definition wordCount (s : string) : nat := countWords false s.

(** Some character of the string is white space. *)
Fixpoint hasWhite (s : string) : bool :=
  match s with
  | EmptyString => false
  | String c s' => isWhite c || hasWhite s'
  end.

(** [n.toLocaleString()] for an integer in the en-US locale: a minus
    sign if it is negative, then the decimal digits in groups of three,
    separated by commas. *)
Fixpoint groupThousands (revDigits : list ascii) : list ascii :=
  match revDigits with
  | a :: b :: c :: ((_ :: _) as rest) =>
      a :: b :: c :: ","%char :: groupThousands rest
  | l => l
  end.

Definition toLocaleString (n : Z) : string :=
  let digits :=
    string_of_list_ascii
      (rev (groupThousands
              (rev (list_ascii_of_string
                      (NilZero.string_of_uint (N.to_uint (Z.abs_N n))))))) in
  if n <? 0 then String "-" digits else digits.

End JsString.

(** ** The [POST /mood] route *)

Module Mood.
Import JsString.

(** The request body: not JSON at all, or an object whose [query]
    field is absent or a string. *)
Inductive Request :=
| InvalidJson
| Body (query : option string).

(** What the upstream chat-completion call answers. *)
Inductive Upstream :=
| FetchThrows
| NotOk (status : Z) (errorText : string)
| Malformed
| Completion (content : option string).

Inductive JsonBody :=
| Answer (answer query : string)
| Error (error : string).

Record Response := { status : Z; body : JsonBody }.

(** A call of the upstream language-model API. *)
Inductive Call := ChatCompletion (userContent : string).

Definition sensitiveKeywords : list string :=
  ["hurt myself"; "hurt myself"; "suicide"; "kill myself"; "end it all";
   "not worth it"].

Definition isSensitive (query : string) : bool :=
  some (fun keyword => includes keyword (toLowerCase query)) sensitiveKeywords.

Definition safetyResponse : string :=
  "I'm really sorry you're feeling this way. You are valued and important, and there are people who care about you. Please know that you don't have to go through this alone. Is there someone you trust that you could talk to? I'm here to listen and support you.".

Definition moodKeywords : list (string * string) :=
  [("sad", "I'm really sorry you're feeling this way. It's okay to feel sad sometimes. Can you tell me more about what's been going on? I'm here to listen and support you.");
   ("angry", "I understand you're feeling angry, and that's completely valid. Sometimes it helps to talk about what's bothering you. What's been on your mind?");
   ("frustrated", "I'm sorry you're feeling frustrated. That can be really tough to deal with. Is there something specific that's been bothering you? I'm here to listen.");
   ("overwhelmed", "I'm sorry you're feeling overwhelmed. That can be really difficult. Take a deep breath - you're doing your best. What's been weighing on you?");
   ("stressed", "I'm sorry you're feeling stressed. That can be really draining. Is there anything specific that's been causing you stress? I'm here to support you.");
   ("anxious", "I'm sorry you're feeling anxious. That can be really uncomfortable. Take a moment to breathe. What's been making you feel this way?");
   ("lonely", "I'm sorry you're feeling lonely. That can be really hard. You're not alone in this - I'm here to listen and support you. What's been on your mind?");
   ("happy", "That's wonderful to hear! I'm so glad you're feeling happy. What's been making you feel this way? I'd love to share in your joy!");
   ("excited", "That's fantastic! I'm excited for you! What's got you feeling this way? I'd love to hear about it!");
   ("grateful", "That's beautiful! Gratitude is such a wonderful feeling. What are you grateful for? I'd love to hear about it!")].

Definition detectedMood (query : string) : option (string * string) :=
  let q := toLowerCase query in
  find (fun '(mood, _) =>
          includes mood q
          || includes ("feeling " ++ mood) q
          || includes ("i'm " ++ mood) q
          || includes ("i am " ++ mood) q)
       moodKeywords.

Definition defaultAnswer : string :=
  "I'm here to listen and support you. How can I help you feel better?".

Definition failure : Response :=
  {| status := 500; body := Error "Failed to provide mood response" |}.

Definition ok (answer query : string) : Response :=
  {| status := 200; body := Answer answer query |}.

(** The handler: the response, and the upstream calls it made. *)
Definition POST (request : Request) (upstream : Upstream)
  : Response * list Call :=
  match request with
  | InvalidJson => (failure, [])
  | Body None | Body (Some EmptyString) =>
      ({| status := 400; body := Error "Query is required" |}, [])
  | Body (Some query) =>
      if isSensitive query then (ok safetyResponse query, [])
      else
        match detectedMood query with
        | Some (_, empatheticResponse) => (ok empatheticResponse query, [])
        | None =>
            let calls := [ChatCompletion query] in
            match upstream with
            | FetchThrows | NotOk _ _ | Malformed => (failure, calls)
            | Completion (Some (String _ _ as content)) =>
                (ok content query, calls)
            | Completion _ => (ok defaultAnswer query, calls)
            end
        end
  end.

End Mood.

(** ** The voice assistant component *)

Module Voice.
Import JsString.
Local Open Scope list_scope.

Inductive ConnectionStatus := Disconnected | Connecting | Connected.
Inductive AvatarState := Idle | Listening | Speaking | Thinking.

(** The fact the donations page leaves in [window.biggestDonationInfo]. *)
Record DonationInfo := { donor : string; amount : Z; date : string }.

(** What the component gets from outside: its props, the global cache
    and the capabilities of the browser. *)
Record Env := {
  tenantId : string;
  onTranscript : bool;          (* the optional prop is present *)
  onCommand : bool;             (* the optional prop is present *)
  biggestDonationInfo : option DonationInfo;
  speechSynthesis : bool;       (* 'speechSynthesis' in window *)
  speechRecognition : bool      (* a SpeechRecognition constructor exists *)
}.

(** The callback [processVoiceCommand] hands to [speak]: the one of the
    remote-query branches, or the one of the common tail. *)
Inductive OnEnd :=
| NoCallback
| QueryDone (command : string)
| CommandDone (command : string) (navigateTo : option string).

(** The function kept in [stopSpeakingRef]: whether its render
    snapshot lets it reset the avatar, and the callback it ends with. *)
Record StopFn := { stopIdle : bool; stopOnEnd : OnEnd }.

(** Bodies of the timers the component arms. *)
Inductive Task :=
| RouterPush (url : string)
| ClearLastCommand
| RearmListening
| ProcessCommand (finalTranscript : string).

Inductive Effect :=
| CallOnTranscript (text : string)
| CallOnCommand (command : string)
| Fetch (url query : string)
| HostedTts (text : string) (onEnd : OnEnd)
| FallbackLog
| SynthCancel
| SynthSpeak (text : string) (onEnd : OnEnd)
| AudioPause
| RevokeObjectURL
| RecognitionStop
| RecognitionStart
| CancelAnimationFrame
| AudioContextClose
| RoomDisconnect
| PublishData (text : string) (timestamp : Z)
| SetTimeout (task : Task) (delay : Z)
| Navigate (url : string).

Record Session := mkSession {
  isConnected : bool;
  isListening : bool;
  transcript : string;
  isSpeaking : bool;
  connectionStatus : ConnectionStatus;
  error : string;
  avatarState : AvatarState;
  isProcessing : bool;
  isAmbientMode : bool;
  audioLevel : Q;
  isProcessingCommand : bool;
  hasIntroduced : bool;
  lastProcessedCommand : string;          (* lastProcessedCommand.current *)
  lastProcessedTimestamp : option Z;      (* the timestamp property put on the ref *)
  stopSpeakingRef : option StopFn;
  roomRef : bool;
  speechSynthesisRef : option string;     (* text of the last utterance *)
  recognitionRef : bool;
  audioContextRef : bool;
  analyserRef : bool;
  animationFrameRef : bool
}.

Definition initialSession : Session :=
  mkSession false false "" false Disconnected "" Idle false true 0%Q false
            false "" None None false None false false false false.

Definition setIsConnected v s :=
  let '(mkSession _ b c d e f g h i j k l m n o p q r t u w) := s in
  mkSession v b c d e f g h i j k l m n o p q r t u w.
Definition setIsListening v s :=
  let '(mkSession a _ c d e f g h i j k l m n o p q r t u w) := s in
  mkSession a v c d e f g h i j k l m n o p q r t u w.
Definition setTranscript v s :=
  let '(mkSession a b _ d e f g h i j k l m n o p q r t u w) := s in
  mkSession a b v d e f g h i j k l m n o p q r t u w.
Definition setIsSpeaking v s :=
  let '(mkSession a b c _ e f g h i j k l m n o p q r t u w) := s in
  mkSession a b c v e f g h i j k l m n o p q r t u w.
Definition setConnectionStatus v s :=
  let '(mkSession a b c d _ f g h i j k l m n o p q r t u w) := s in
  mkSession a b c d v f g h i j k l m n o p q r t u w.
Definition setError v s :=
  let '(mkSession a b c d e _ g h i j k l m n o p q r t u w) := s in
  mkSession a b c d e v g h i j k l m n o p q r t u w.
Definition setAvatarState v s :=
  let '(mkSession a b c d e f _ h i j k l m n o p q r t u w) := s in
  mkSession a b c d e f v h i j k l m n o p q r t u w.
Definition setIsProcessing v s :=
  let '(mkSession a b c d e f g _ i j k l m n o p q r t u w) := s in
  mkSession a b c d e f g v i j k l m n o p q r t u w.
Definition setIsAmbientMode v s :=
  let '(mkSession a b c d e f g h _ j k l m n o p q r t u w) := s in
  mkSession a b c d e f g h v j k l m n o p q r t u w.
Definition setAudioLevel v s :=
  let '(mkSession a b c d e f g h i _ k l m n o p q r t u w) := s in
  mkSession a b c d e f g h i v k l m n o p q r t u w.
Definition setIsProcessingCommand v s :=
  let '(mkSession a b c d e f g h i j _ l m n o p q r t u w) := s in
  mkSession a b c d e f g h i j v l m n o p q r t u w.
Definition setHasIntroduced v s :=
  let '(mkSession a b c d e f g h i j k _ m n o p q r t u w) := s in
  mkSession a b c d e f g h i j k v m n o p q r t u w.
Definition setLastProcessedCommand v s :=
  let '(mkSession a b c d e f g h i j k l _ n o p q r t u w) := s in
  mkSession a b c d e f g h i j k l v n o p q r t u w.
Definition setLastProcessedTimestamp v s :=
  let '(mkSession a b c d e f g h i j k l m _ o p q r t u w) := s in
  mkSession a b c d e f g h i j k l m v o p q r t u w.
Definition setStopSpeakingRef v s :=
  let '(mkSession a b c d e f g h i j k l m n _ p q r t u w) := s in
  mkSession a b c d e f g h i j k l m n v p q r t u w.
Definition setRoomRef v s :=
  let '(mkSession a b c d e f g h i j k l m n o _ q r t u w) := s in
  mkSession a b c d e f g h i j k l m n o v q r t u w.
Definition setSpeechSynthesisRef v s :=
  let '(mkSession a b c d e f g h i j k l m n o p _ r t u w) := s in
  mkSession a b c d e f g h i j k l m n o p v r t u w.
Definition setRecognitionRef v s :=
  let '(mkSession a b c d e f g h i j k l m n o p q _ t u w) := s in
  mkSession a b c d e f g h i j k l m n o p q v t u w.
Definition setAudioContextRef v s :=
  let '(mkSession a b c d e f g h i j k l m n o p q r _ u w) := s in
  mkSession a b c d e f g h i j k l m n o p q r v u w.
Definition setAnalyserRef v s :=
  let '(mkSession a b c d e f g h i j k l m n o p q r t _ w) := s in
  mkSession a b c d e f g h i j k l m n o p q r t v w.
Definition setAnimationFrameRef v s :=
  let '(mkSession a b c d e f g h i j k l m n o p q r t u _) := s in
  mkSession a b c d e f g h i j k l m n o p q r t u v.

(** [!isListening && !isProcessing && !isProcessingCommand], the test
    every speech path makes before it resets the avatar. *)
Definition mayIdle (cl : Session) : bool :=
  negb (isListening cl) && negb (isProcessing cl)
  && negb (isProcessingCommand cl).

(** [isProcessingCommand || isSpeaking || isProcessing]. *)
Definition busy (cl : Session) : bool :=
  isProcessingCommand cl || isSpeaking cl || isProcessing cl.

Definition when (b : bool) (fx : list Effect) : list Effect :=
  if b then fx else [].

(** *** Speech output *)

(** The callback [speak] wraps around the caller's: run it, then arm
    the 2 s timer that re-enables recognition. *)
Definition speakOnEnd (env : Env) (onEnd : OnEnd) (st : Session)
  : Session * list Effect :=
  let done command st :=
    (setIsProcessingCommand false (setIsProcessing false st),
     when (onCommand env) [CallOnCommand command]) in
  let '(st', fx) :=
    match onEnd with
    | NoCallback => (st, [])
    | QueryDone command =>
        let '(st', fx) := done command st in
        (st', fx ++ [SetTimeout ClearLastCommand 3000])
    | CommandDone command navigateTo =>
        let '(st', fx) := done command st in
        (st', fx ++ match navigateTo with
                    | Some url => [SetTimeout (RouterPush url) 500]
                    | None => []
                    end
                 ++ [SetTimeout ClearLastCommand 5000])
    end in
  (st', fx ++ [SetTimeout RearmListening 2000]).

Definition fallbackSpeak (env : Env) (st : Session) (text : string)
           (onEnd : OnEnd) : Session * list Effect :=
  if speechSynthesis env
  then (setSpeechSynthesisRef (Some text) st,
        [FallbackLog; SynthCancel; SynthSpeak text onEnd])
  else (st, [FallbackLog]).

(** What the browser reports about the audio element after a
    successful [/api/openai/tts] response: the promise of [play()]
    rejects, the [error] event fires, or the [ended] event fires.  The
    signals of one attempt come as a list, since they do not exclude
    each other: a source that cannot be loaded makes the browser fire
    [error] and reject the pending [play()] promise as well. *)
Inductive AudioSignal := PlayRejected | ErrorEvent | Ended.

(** How the hosted synthesis attempt goes. *)
Inductive HostedOutcome :=
| TtsFetchThrows
| TtsNotOk (status : Z)
| TtsAudio (signals : list AudioSignal).

Definition idleIf (b : bool) (st : Session) : Session :=
  if b then setAvatarState Idle st else st.

Definition audioSignal (env : Env) (cl : Session) (text : string)
           (onEnd : OnEnd) (acc : Session * list Effect) (sig : AudioSignal)
  : Session * list Effect :=
  let '(st, fx) := acc in
  match sig with
  | PlayRejected =>
      let '(st', fx') := fallbackSpeak env st text onEnd in (st', fx ++ fx')
  | ErrorEvent =>
      let st := idleIf (mayIdle cl) (setIsSpeaking false st) in
      let '(st', fx') := fallbackSpeak env st text onEnd in (st', fx ++ fx')
  | Ended =>
      let st := idleIf (mayIdle cl) (setIsSpeaking false st) in
      let st := setStopSpeakingRef None st in
      let '(st', fx') := speakOnEnd env onEnd st in
      (st', fx ++ RevokeObjectURL :: fx')
  end.

(** [speakWithOpenAI] from the point where the request to
    [/api/openai/tts] settles; [cl] is the render snapshot of the
    invocation, [onEnd] the callback [speak] wrapped. *)
Definition speakWithOpenAI (env : Env) (cl st : Session) (text : string)
           (onEnd : OnEnd) (outcome : HostedOutcome)
  : Session * list Effect :=
  match outcome with
  | TtsFetchThrows | TtsNotOk _ => fallbackSpeak env st text onEnd
  | TtsAudio signals =>
      let st := setAvatarState Speaking (setIsSpeaking true st) in
      let st :=
        setStopSpeakingRef
          (Some {| stopIdle := mayIdle cl; stopOnEnd := onEnd |}) st in
      fold_left (audioSignal env cl text onEnd) signals (st, [])
  end.

(** [speak]: stop recognition, then start the hosted attempt. *)
Definition speak (st : Session) (text : string) (onEnd : OnEnd)
  : Session * list Effect :=
  (st, when (recognitionRef st) [RecognitionStop] ++ [HostedTts text onEnd]).

Definition stopSpeaking (env : Env) (cl st : Session)
  : Session * list Effect :=
  let '(st, fx) :=
    match stopSpeakingRef st with
    | Some f =>
        let st := idleIf (stopIdle f) (setIsSpeaking false st) in
        let '(st, fx) := speakOnEnd env (stopOnEnd f) st in
        (setStopSpeakingRef None st, AudioPause :: RevokeObjectURL :: fx)
    | None => (st, [])
    end in
  (idleIf (mayIdle cl) (setIsSpeaking false st),
   fx ++ when (speechSynthesis env) [SynthCancel]).


(** *** The command classifier

    The branches of the [if / else if] chain of [processVoiceCommand],
    in the order of the source, and the condition of each. *)

Inductive Branch :=
| StopSpeaking | Pipeline | Donations | BiggestDonor | Contacts | Calendar
| Reports | FindJonathan | FindTakua | FindHong | FindDatz | Weather
| DonationAdvice | GeneralQuestion | Help | Unrecognized.

Definition anyOf (keywords : list string) (s : string) : bool :=
  some (fun keyword => includes keyword s) keywords.

Definition guard (b : Branch) (lowerCommand : string) : bool :=
  match b with
  | StopSpeaking =>
      anyOf ["stop"; "stop talking"; "shut up"; "be quiet"] lowerCommand
  | Pipeline => anyOf ["sales"; "funnel"; "pipeline"] lowerCommand
  | Donations => anyOf ["donations"; "quarter"; "revenue"] lowerCommand
  | BiggestDonor =>
      anyOf ["biggest donation"; "biggest donor"; "top donor";
             "largest donation"; "biggest donor this quarter";
             "who is the biggest donor"] lowerCommand
  | Contacts => anyOf ["contacts"; "people"; "customers"] lowerCommand
  | Calendar => anyOf ["calendar"; "meeting"; "schedule"] lowerCommand
  | Reports => anyOf ["reports"; "analytics"; "data"] lowerCommand
  | FindJonathan =>
      includes "find" lowerCommand && includes "jonathan" lowerCommand
  | FindTakua => includes "find" lowerCommand && includes "takua" lowerCommand
  | FindHong => includes "find" lowerCommand && includes "hong" lowerCommand
  | FindDatz => includes "find" lowerCommand && includes "datz" lowerCommand
  | Weather =>
      anyOf ["weather"; "temperature"; "climate"; "what's the weather";
             "how's the weather"; "weather like"; "weather in tokyo";
             "tokyo weather"; "rain"; "sunny"; "cloudy"; "forecast"]
            lowerCommand
  | DonationAdvice =>
      anyOf ["donation advice"; "how to get donations"; "donation strategy";
             "increase donations"; "get donations up"; "donation tips";
             "fundraising advice"] lowerCommand
  | GeneralQuestion =>
      some (fun p => startsWith p lowerCommand)
           ["question"; "ask"; "what is"; "how does"; "explain";
            "tell me about"]
  | Help => anyOf ["help"; "what can you do"] lowerCommand
  | Unrecognized => true
  end.

Definition classify (lowerCommand : string) : Branch :=
  if guard StopSpeaking lowerCommand then StopSpeaking
  else if guard Pipeline lowerCommand then Pipeline
  else if guard Donations lowerCommand then Donations
  else if guard BiggestDonor lowerCommand then BiggestDonor
  else if guard Contacts lowerCommand then Contacts
  else if guard Calendar lowerCommand then Calendar
  else if guard Reports lowerCommand then Reports
  else if guard FindJonathan lowerCommand then FindJonathan
  else if guard FindTakua lowerCommand then FindTakua
  else if guard FindHong lowerCommand then FindHong
  else if guard FindDatz lowerCommand then FindDatz
  else if guard Weather lowerCommand then Weather
  else if guard DonationAdvice lowerCommand then DonationAdvice
  else if guard GeneralQuestion lowerCommand then GeneralQuestion
  else if guard Help lowerCommand then Help
  else Unrecognized.

(** Position of a branch in the chain. *)
Definition position (b : Branch) : nat :=
  match b with
  | StopSpeaking => 0 | Pipeline => 1 | Donations => 2 | BiggestDonor => 3
  | Contacts => 4 | Calendar => 5 | Reports => 6 | FindJonathan => 7
  | FindTakua => 8 | FindHong => 9 | FindDatz => 10 | Weather => 11
  | DonationAdvice => 12 | GeneralQuestion => 13 | Help => 14
  | Unrecognized => 15
  end.

Definition branches : list Branch :=
  [StopSpeaking; Pipeline; Donations; BiggestDonor; Contacts; Calendar;
   Reports; FindJonathan; FindTakua; FindHong; FindDatz; Weather;
   DonationAdvice; GeneralQuestion; Help; Unrecognized].

(** The rule of the specification's list 1-11 whose intent a branch
    carries out: the biggest-donor answer is the one the list gives
    under rule 3, the [find <name>] variants are part of rule 4. *)
Definition rule (b : Branch) : nat :=
  match b with
  | StopSpeaking => 1 | Pipeline => 2 | Donations | BiggestDonor => 3
  | Contacts | FindJonathan | FindTakua | FindHong | FindDatz => 4
  | Calendar => 5 | Reports => 6 | Weather => 7 | DonationAdvice => 8
  | GeneralQuestion => 9 | Help => 10 | Unrecognized => 11
  end.

(** The classifier as the specification words it: a rule matches when
    the utterance has one of the keywords the list names for it, and
    the first matching rule of 1-11 is taken.  Rule 3 is keyed on
    donations, quarter and revenue alone; the list has the biggest
    donor only as a further condition on an utterance rule 3 matches.
    Rule 4 is keyed on its three keywords and on the [find <name>]
    variants, which the component has for four names; rule 11 matches
    everything. *)
Definition ruleMatches (n : nat) (lowerCommand : string) : bool :=
  match n with
  | 1 => guard StopSpeaking lowerCommand
  | 2 => guard Pipeline lowerCommand
  | 3 => guard Donations lowerCommand
  | 4 => guard Contacts lowerCommand
         || guard FindJonathan lowerCommand || guard FindTakua lowerCommand
         || guard FindHong lowerCommand || guard FindDatz lowerCommand
  | 5 => guard Calendar lowerCommand
  | 6 => guard Reports lowerCommand
  | 7 => guard Weather lowerCommand
  | 8 => guard DonationAdvice lowerCommand
  | 9 => guard GeneralQuestion lowerCommand
  | 10 => guard Help lowerCommand
  | 11 => true
  | _ => false
  end%nat.

Definition firstRule (lowerCommand : string) : nat :=
  match find (fun n => ruleMatches n lowerCommand) (seq 1 11) with
  | Some n => n
  | None => 11
  end.

(** Whether the utterance sets a [find <name>] variant of rule 4
    against rule 5 or rule 6. *)
Definition findConflict (lowerCommand : string) : bool :=
  (guard FindJonathan lowerCommand || guard FindTakua lowerCommand
   || guard FindHong lowerCommand || guard FindDatz lowerCommand)
  && (guard Calendar lowerCommand || guard Reports lowerCommand).

(** *** The command dispatcher *)

Inductive Rejection := Busy | SameCommand | TooShort | TooRecent.

Inductive Outcome :=
| Ignored (why : Rejection)
| Stopped
| Spoke (responseText : string) (navigateTo : option string).

(** What the server proxy answers to a remote query. *)
Inductive QueryResult :=
| QueryThrows
| QueryNotOk
| QueryOk (answer : string).

Record Dispatch := {
  state : Session;
  effects : list Effect;
  outcome : Outcome
}.

Definition page (env : Env) (path : string) : string :=
  ("/t/" ++ tenantId env ++ path)%string.

Definition helpText : string :=
  "I can help you navigate to sales pipeline, donations, contacts, calendar, reports, find specific people like Jonathan, Takua, Hong, or Datz, tell you about the biggest donor this quarter, check the weather in Tokyo, get donation advice, answer any general question, or say 'stop' to stop me talking! Just say what you need!".

(** [responseText] and [navigateTo] as the branches without a remote
    query leave them. *)
Definition localResponse (env : Env) (lowerCommand : string) (b : Branch)
  : string * option string :=
  match b with
  | Pipeline =>
      ("Let me show you the sales pipeline!", Some (page env "/pipeline"))
  | Donations =>
      ("Perfect! Opening donations for this quarter!",
       Some (page env "/donations"))
  | BiggestDonor =>
      match biggestDonationInfo env with
      | Some info =>
          if includes "quarter" lowerCommand
          then ("Alex Inc is the biggest donor this quarter with $"
                  ++ toLocaleString (amount info) ++ " donated on "
                  ++ date info ++ "!", None)%string
          else ("The biggest donor is " ++ donor info ++ " with $"
                  ++ toLocaleString (amount info) ++ " donated on "
                  ++ date info ++ "!", None)%string
      | None =>
          ("Perfect! Let me show you the donations page to find the biggest donor this quarter!",
           Some (page env "/donations"))
      end
  | Contacts => ("Opening your contacts!", Some (page env "/contacts"))
  | Calendar => ("Let's check your calendar!", Some (page env "/calendar"))
  | Reports => ("Perfect! Generating your reports!", Some (page env "/reports"))
  | FindJonathan =>
      ("Perfect! Let me find Jonathan for you!",
       Some (page env "/contacts?search=Jonathan"))
  | FindTakua =>
      ("Finding Takua for you!", Some (page env "/contacts?search=Takua"))
  | FindHong =>
      ("Perfect! Let me find Hong for you!",
       Some (page env "/contacts?search=Hong"))
  | FindDatz =>
      ("Finding Datz for you!", Some (page env "/contacts?search=Datz"))
  | Help => (helpText, None)
  | Unrecognized =>
      ("I didn't quite catch that. Try saying 'sales pipeline', 'donations', 'contacts', 'find Jonathan', or ask a question starting with 'QUESTION'.",
       None)
  | StopSpeaking | Weather | DonationAdvice | GeneralQuestion =>
      ("Perfect! Let me help you with that!", None)
  end.

(** The proxy a remote-query branch calls, and what it says when the
    proxy answers with an error status or the call throws. *)
Definition remoteQuery (b : Branch) : option (string * string * string) :=
  match b with
  | Weather =>
      Some ("/api/openai/weather",
            "I couldn't get the weather information right now. Please try again later!",
            "I'm having trouble getting weather information. Please try again!")
  | DonationAdvice =>
      Some ("/api/openai/donation-advice",
            "I couldn't get donation advice right now. Please try again later!",
            "I'm having trouble getting donation advice. Please try again!")
  | GeneralQuestion =>
      Some ("/api/openai/general-question",
            "I couldn't answer that question right now. Please try again later!",
            "I'm having trouble answering that question. Please try again!")
  | _ => None
  end.

Definition ignored (st : Session) (why : Rejection) : Dispatch :=
  {| state := st; effects := []; outcome := Ignored why |}.

(** [processVoiceCommand] up to its call of [speak], called from the
    render of the session it acts on; [now] is what [Date.now()]
    returns and [reply] what the proxy answers if the branch taken
    queries one. *)
Definition processVoiceCommand (env : Env) (st : Session) (now : Z)
           (command : string) (reply : QueryResult) : Dispatch :=
  if busy st then ignored st Busy else
  let normalizedCommand := trim (toLowerCase command) in
  if String.eqb (lastProcessedCommand st) normalizedCommand
  then ignored st SameCommand else
  let commandWords := split " " normalizedCommand in
  if (List.length commandWords <? 2)%nat
     && negb (includes "help" normalizedCommand)
     && negb (includes "stop" normalizedCommand)
  then ignored st TooShort else
  let lastProcessedTime :=
    match lastProcessedTimestamp st with Some t => t | None => 0 end in
  if now - lastProcessedTime <? 3000 then ignored st TooRecent else
  let st1 :=
    setAvatarState Thinking
      (setIsProcessing true
         (setIsProcessingCommand true
            (setLastProcessedTimestamp (Some now)
               (setLastProcessedCommand normalizedCommand st)))) in
  let fx0 := when (onTranscript env) [CallOnTranscript command] in
  let lowerCommand := toLowerCase command in
  let b := classify lowerCommand in
  match b with
  | StopSpeaking =>
      let '(st2, fx) := stopSpeaking env st st1 in
      {| state :=
           setAvatarState Idle
             (setIsProcessing false (setIsProcessingCommand false st2));
         effects := fx0 ++ fx;
         outcome := Stopped |}
  | _ =>
      match remoteQuery b with
      | Some (url, notOkText, throwsText) =>
          let st2 := setAvatarState Thinking (setIsProcessing true st1) in
          let responseText :=
            match reply with
            | QueryOk answer => answer
            | QueryNotOk => notOkText
            | QueryThrows => throwsText
            end in
          let '(st3, fx) := speak st2 responseText (QueryDone command) in
          {| state := st3;
             effects := fx0 ++ Fetch url command :: fx;
             outcome := Spoke responseText None |}
      | None =>
          let '(responseText, navigateTo) :=
            localResponse env lowerCommand b in
          let '(st2, fx) :=
            speak st1 responseText (CommandDone command navigateTo) in
          {| state := st2;
             effects := fx0 ++ fx;
             outcome := Spoke responseText navigateTo |}
      end
  end.

(** [processVoiceCommand] as any caller finds it: the function of the
    render [cl], run on the session [st].  The three flags of the
    first guard, and those [stopSpeaking] tests, are the constants of
    [cl]; the command and the time stamp kept in the ref, and every
    setter, are those of [st]. *)
Definition processVoiceCommandIn (env : Env) (cl st : Session) (now : Z)
           (command : string) (reply : QueryResult) : Dispatch :=
  if busy cl then ignored st Busy else
  let normalizedCommand := trim (toLowerCase command) in
  if String.eqb (lastProcessedCommand st) normalizedCommand
  then ignored st SameCommand else
  let commandWords := split " " normalizedCommand in
  if (List.length commandWords <? 2)%nat
     && negb (includes "help" normalizedCommand)
     && negb (includes "stop" normalizedCommand)
  then ignored st TooShort else
  let lastProcessedTime :=
    match lastProcessedTimestamp st with Some t => t | None => 0 end in
  if now - lastProcessedTime <? 3000 then ignored st TooRecent else
  let st1 :=
    setAvatarState Thinking
      (setIsProcessing true
         (setIsProcessingCommand true
            (setLastProcessedTimestamp (Some now)
               (setLastProcessedCommand normalizedCommand st)))) in
  let fx0 := when (onTranscript env) [CallOnTranscript command] in
  let lowerCommand := toLowerCase command in
  let b := classify lowerCommand in
  match b with
  | StopSpeaking =>
      let '(st2, fx) := stopSpeaking env cl st1 in
      {| state :=
           setAvatarState Idle
             (setIsProcessing false (setIsProcessingCommand false st2));
         effects := fx0 ++ fx;
         outcome := Stopped |}
  | _ =>
      match remoteQuery b with
      | Some (url, notOkText, throwsText) =>
          let st2 := setAvatarState Thinking (setIsProcessing true st1) in
          let responseText :=
            match reply with
            | QueryOk answer => answer
            | QueryNotOk => notOkText
            | QueryThrows => throwsText
            end in
          let '(st3, fx) := speak st2 responseText (QueryDone command) in
          {| state := st3;
             effects := fx0 ++ Fetch url command :: fx;
             outcome := Spoke responseText None |}
      | None =>
          let '(responseText, navigateTo) :=
            localResponse env lowerCommand b in
          let '(st2, fx) :=
            speak st1 responseText (CommandDone command navigateTo) in
          {| state := st2;
             effects := fx0 ++ fx;
             outcome := Spoke responseText navigateTo |}
      end
  end.


(** *** Speech capture *)

(** One entry of [event.results]: its first alternative and whether
    the recogniser marked the segment final.  A confidence the
    recogniser does not report as a number is [None]. *)
Record RecognitionResult := {
  alternative : string;
  confidence : option Q;
  isFinal : bool
}.

Record RecognitionEvent := {
  resultIndex : nat;
  results : list RecognitionResult
}.

Definition noisePatterns : list string :=
  ["uh"; "um"; "ah"; "eh"; "oh"; "mm"; "hmm"; "huh";
   "yeah"; "yes"; "no"; "ok"; "okay"; "right"; "sure";
   "hello"; "hi"; "hey"; "test"; "testing"; "mic"; "microphone"].

(** The double nearest to 0.8. *)
Definition minConfidence : Q := 3602879701896397 # 4503599627370496.

Definition lowConfidence (rs : list RecognitionResult) : bool :=
  match last (map Some rs) None with
  | Some r =>
      match confidence r with
      | Some c => negb (Qle_bool minConfidence c)
      | None => false
      end
  | None => false
  end.

(** The text of the results of one finality, concatenated in order. *)
Definition collect (final : bool) (rs : list RecognitionResult) : string :=
  fold_left
    (fun acc r =>
       if Bool.eqb (isFinal r) final then (acc ++ alternative r)%string
       else acc)
    rs "".

Definition nonEmpty (s : string) : bool :=
  match s with EmptyString => false | _ => true end.

(** [recognition.onresult].  The handler is made by
    [startAmbientListening] and stays with the recogniser: [cl] is the
    render that called [startAmbientListening], whose flags the last
    test reads. *)
Definition onresult (cl st : Session) (now : Z) (event : RecognitionEvent)
  : Session * list Effect :=
  let batch := skipn (resultIndex event) (results event) in
  let finalTranscript := collect true batch in
  let interimTranscript := collect false batch in
  let st1 :=
    if nonEmpty interimTranscript then setTranscript interimTranscript st
    else st in
  if negb (nonEmpty finalTranscript) then (st1, []) else
  let trimmedTranscript := trim finalTranscript in
  if (String.length trimmedTranscript <? 5)%nat then (st1, []) else
  if lowConfidence (results event) then (st1, []) else
  let lowerTranscript := toLowerCase trimmedTranscript in
  if arrayIncludes lowerTranscript noisePatterns then (st1, []) else
  if (List.length (split " " lowerTranscript) =? 1)%nat
     && (String.length lowerTranscript <? 8)%nat
  then (st1, []) else
  let st2 := setTranscript finalTranscript st1 in
  (st2,
   when (roomRef st) [PublishData finalTranscript now]
   ++ when (negb (busy cl)) [SetTimeout (ProcessCommand finalTranscript) 500]).

Definition startAmbientListening (env : Env) (st : Session)
  : Session * list Effect :=
  if speechRecognition env
  then (setRecognitionRef true st, [RecognitionStart])
  else (setError "Speech recognition not supported in this browser" st, []).

Definition stopAmbientListening (cl st : Session) : Session * list Effect :=
  if recognitionRef st
  then (idleIf (negb (isProcessing cl))
          (setIsAmbientMode false
             (setIsListening false (setRecognitionRef false st))),
        [RecognitionStop])
  else (st, []).

Definition cleanupAudioMonitoring (st : Session) : Session * list Effect :=
  let '(st1, fx1) :=
    if animationFrameRef st
    then (setAnimationFrameRef false st, [CancelAnimationFrame])
    else (st, []) in
  let '(st2, fx2) :=
    if audioContextRef st1
    then (setAudioContextRef false st1, [AudioContextClose])
    else (st1, []) in
  (setAudioLevel 0%Q (setAnalyserRef false st2), fx1 ++ fx2).

(** The body of a timer, when it fires on the session [st]; [cl] is
    the render of the function that armed it, whose flags the body
    reads. *)
Definition runTask (env : Env) (cl st : Session) (now : Z) (task : Task)
           (reply : QueryResult) : Session * list Effect :=
  match task with
  | RouterPush url => (st, [Navigate url])
  | ClearLastCommand => (setLastProcessedCommand "" st, [])
  | RearmListening =>
      if isConnected cl && isAmbientMode cl && negb (isProcessingCommand cl)
      then startAmbientListening env st
      else (st, [])
  | ProcessCommand finalTranscript =>
      if negb (busy cl)
      then let d := processVoiceCommandIn env cl st now finalTranscript reply in
           (state d, effects d)
      else (st, [])
  end.

(** *** The session controller *)

(** A data message of the room, once decoded. *)
Inductive DataMessage :=
| Unparsable
| TranscriptMessage (text : string)
| ResponseMessage (text : string)
| OtherMessage.

(** The [RoomEvent.DataReceived] handler.  [connectToRoom] registers
    it once: [cl] is the render that called [connectToRoom], whose
    flags the handler and the dispatcher it calls read. *)
Definition onDataReceived (env : Env) (cl st : Session) (now : Z)
           (msg : DataMessage) (reply : QueryResult)
  : Session * list Effect :=
  match msg with
  | TranscriptMessage text =>
      let st1 := setTranscript text st in
      let fx := when (onTranscript env) [CallOnTranscript text] in
      if negb (busy cl)
      then let d := processVoiceCommandIn env cl st1 now text reply in
           (state d, fx ++ effects d)
      else (st1, fx)
  | ResponseMessage text => speak st text NoCallback
  | Unparsable | OtherMessage => (st, [])
  end.

(** The [RoomEvent.Disconnected] handler.  It is applied to the
    session alone: the one flag read on its way, in
    [stopAmbientListening], guards a reset of the avatar that the
    handler has made already, so the render that registered it plays
    no part in the result. *)
Definition onDisconnected (st : Session) : Session * list Effect :=
  let st1 :=
    setHasIntroduced false
      (setAvatarState Idle
         (setConnectionStatus Disconnected
            (setIsListening false (setIsConnected false st)))) in
  let '(st2, fx1) := cleanupAudioMonitoring st1 in
  let '(st3, fx2) := stopAmbientListening st st2 in
  (st3, fx1 ++ fx2).

(** [disconnectFromRoom], the user's disconnect. *)
Definition disconnectFromRoom (st : Session) : Session * list Effect :=
  let '(st1, fx1) := stopAmbientListening st st in
  let '(st2, fx2) := cleanupAudioMonitoring st1 in
  let '(st3, fx3) :=
    if roomRef st2 then (setRoomRef false st2, [RoomDisconnect])
    else (st2, []) in
  (setHasIntroduced false
     (setAvatarState Idle
        (setTranscript ""
           (setConnectionStatus Disconnected
              (setIsProcessingCommand false
                 (setIsProcessing false
                    (setIsListening false (setIsConnected false st3))))))),
   fx1 ++ fx2 ++ fx3).

(** *** Operations in flight

    A hosted synthesis attempt is in flight from the [HostedTts]
    request until the browser has reported how it went.  The session
    together with the attempts in flight, oldest first, makes a small
    machine driven by the data messages of the room and by the
    settling of the attempts; the events of the recogniser and the
    timers are not among its events.  [cl] is the render that called
    [connectToRoom]: the handler of the data messages, and the speech
    output it starts, keep its flags. *)

Record Pending := {
  snapshot : Session;
  text : string;
  callback : OnEnd
}.

Record World := {
  session : Session;
  inFlight : list Pending
}.

Inductive Event :=
| DataReceived (msg : DataMessage) (now : Z) (reply : QueryResult)
| HostedSettles (outcome : HostedOutcome).

Definition started (cl : Session) (fx : list Effect) : list Pending :=
  flat_map
    (fun e =>
       match e with
       | HostedTts t k => [{| snapshot := cl; text := t; callback := k |}]
       | _ => []
       end)
    fx.

Definition step (env : Env) (cl : Session) (w : World) (ev : Event) : World :=
  match ev with
  | DataReceived msg now reply =>
      let '(st, fx) := onDataReceived env cl (session w) now msg reply in
      {| session := st; inFlight := inFlight w ++ started cl fx |}
  | HostedSettles outcome =>
      match inFlight w with
      | [] => w
      | p :: rest =>
          let '(st, _) :=
            speakWithOpenAI env (snapshot p) (session w) (text p)
                            (callback p) outcome in
          {| session := st; inFlight := rest |}
      end
  end.

Definition run (env : Env) (cl : Session) (w : World) (events : list Event)
  : World :=
  fold_left (step env cl) events w.

(** The utterances in the queue of the browser's synthesiser after a
    run of effects: [cancel] empties it, [speak] appends. *)
Definition synthQueue (fx : list Effect) : list string :=
  fold_left
    (fun queue e =>
       match e with
       | SynthCancel => []
       | SynthSpeak t _ => queue ++ [t]
       | _ => queue
       end)
    fx [].

(** How often the browser fallback was entered. *)
Definition fallbackCalls (fx : list Effect) : nat :=
  List.length
    (filter (fun e => match e with FallbackLog => true | _ => false end) fx).

(** A session as it stands after connecting: recognition running and
    metering set up, nothing being processed. *)
Definition connectedSession : Session :=
  setAnimationFrameRef true
    (setAnalyserRef true
       (setAudioContextRef true
          (setRecognitionRef true
             (setRoomRef true
                (setHasIntroduced true
                   (setAvatarState Listening
                      (setConnectionStatus Connected
                         (setIsListening true
                            (setIsConnected true initialSession))))))))).

(** Whether a call of the dispatcher got past its guards. *)
Definition dispatched (d : Dispatch) : bool :=
  match outcome d with
  | Ignored _ => false
  | _ => true
  end.

(** The name a [find] branch searches the contacts for. *)
Definition searchName (b : Branch) : option string :=
  match b with
  | FindJonathan => Some "Jonathan"
  | FindTakua => Some "Takua"
  | FindHong => Some "Hong"
  | FindDatz => Some "Datz"
  | _ => None
  end.

(** A recognition event carrying one final result. *)
Definition finalResult (transcript : string) (c : option Q)
  : RecognitionEvent :=
  {| resultIndex := 0;
     results := [{| alternative := transcript; confidence := c;
                    isFinal := true |}] |}.

(** The demo tenant, with a biggest-donation fact in the global
    cache. *)
Definition demoEnv : Env :=
  {| tenantId := "tokyo-voice-ai";
     onTranscript := true;
     onCommand := true;
     biggestDonationInfo :=
       Some {| donor := "Alex Inc"; amount := 15000; date := "2024-10-25" |};
     speechSynthesis := true;
     speechRecognition := true |}.

Definition freshWorld : World :=
  {| session := connectedSession; inFlight := [] |}.

(** *** The utterance of the browser fallback, and the ambient toggle *)

(** The events of the utterance [fallbackSpeak] queues. *)
Inductive UtteranceEvent := UtteranceStart | UtteranceEnd | UtteranceError.

(** [utterance.onstart], [utterance.onend] and [utterance.onerror];
    [cl] is the render snapshot of the call of [fallbackSpeak], [onEnd]
    the callback [speak] wrapped. *)
Definition onUtterance (env : Env) (cl st : Session) (onEnd : OnEnd)
           (ev : UtteranceEvent) : Session * list Effect :=
  match ev with
  | UtteranceStart => (setAvatarState Speaking (setIsSpeaking true st), [])
  | UtteranceEnd =>
      speakOnEnd env onEnd (idleIf (mayIdle cl) (setIsSpeaking false st))
  | UtteranceError => (idleIf (mayIdle cl) (setIsSpeaking false st), [])
  end.

(** [toggleAmbientMode]. *)
Definition toggleAmbientMode (env : Env) (st : Session)
  : Session * list Effect :=
  if isAmbientMode st
  then
    let '(st1, fx1) := stopAmbientListening st st in
    let '(st2, fx2) :=
      speak st1 "I've stopped listening. Click the button to start ambient listening again!"
            NoCallback in
    (st2, fx1 ++ fx2)
  else
    let '(st1, fx1) := startAmbientListening env (setIsAmbientMode true st) in
    let '(st2, fx2) :=
      speak st1 "I'm now listening ambiently! Just say what you need - like 'show me sales funnel' or 'find Jonathan'!"
            NoCallback in
    (st2, fx1 ++ fx2).

(** The hosted synthesis requests among some effects. *)
Definition hostedRequests (fx : list Effect) : list (string * OnEnd) :=
  flat_map
    (fun e => match e with HostedTts t k => [(t, k)] | _ => [] end) fx.

(** The proxy queries among some effects. *)
Definition proxyQueries (fx : list Effect) : list (string * string) :=
  flat_map
    (fun e => match e with Fetch url q => [(url, q)] | _ => [] end) fx.

(** The timers among some effects. *)
Definition timers (fx : list Effect) : list (Task * Z) :=
  flat_map
    (fun e => match e with SetTimeout task delay => [(task, delay)] | _ => [] end)
    fx.

End Voice.

(** ** The chat proxies: [POST /donation-advice] and [POST /general-question]

    Both routes have one shape: check the query, ask the upstream
    chat-completion API with a fixed system prompt, answer with its
    first choice.  Requests, upstream answers and responses are those
    of the mood route. *)

Module Chat.
Import JsString.

(** The body sent upstream. *)
Record Call := {
  model : string;
  systemPrompt : string;
  userContent : string;
  maxTokens : Z;
  temperature : Q
}.

(** What tells the two routes apart. *)
Record Route := {
  prompt : string;
  tokens : Z;
  fallbackAnswer : string;
  failureError : string
}.

Definition donationAdvice : Route :=
  {| prompt := "You are a fundraising expert specializing in hackathon and tech event fundraising. Provide practical, actionable advice for increasing donations. Focus on strategies that work for tech events, hackathons, and innovation competitions. Keep responses concise (under 150 words) and include specific actionable steps.";
     tokens := 200;
     fallbackAnswer := "Sorry, I could not provide donation advice at this time.";
     failureError := "Failed to get donation advice" |}.

Definition generalQuestion : Route :=
  {| prompt := "You are a helpful AI assistant created at the Tokyo Voice AI Hackathon. You are friendly, knowledgeable, and concise. Answer questions clearly and helpfully. Keep responses conversational and under 200 words unless more detail is specifically requested. If you don't know something, say so honestly.";
     tokens := 300;
     fallbackAnswer := "Sorry, I could not answer that question at this time.";
     failureError := "Failed to answer question" |}.

Definition POST (route : Route) (request : Mood.Request)
           (upstream : Mood.Upstream) : Mood.Response * list Call :=
  let failure :=
    {| Mood.status := 500; Mood.body := Mood.Error (failureError route) |} in
  match request with
  | Mood.InvalidJson => (failure, [])
  | Mood.Body None | Mood.Body (Some EmptyString) =>
      ({| Mood.status := 400; Mood.body := Mood.Error "Query is required" |},
       [])
  | Mood.Body (Some query) =>
      let calls :=
        [{| model := "gpt-4"; systemPrompt := prompt route;
            userContent := query; maxTokens := tokens route;
            temperature := 7 # 10 |}] in
      match upstream with
      | Mood.FetchThrows | Mood.NotOk _ _ | Mood.Malformed => (failure, calls)
      | Mood.Completion (Some (String _ _ as content)) =>
          (Mood.ok content query, calls)
      | Mood.Completion _ => (Mood.ok (fallbackAnswer route) query, calls)
      end
  end.

End Chat.

(** ** The speech proxy: [POST /tts] *)

Module Tts.
Import JsString.

Inductive Request :=
| InvalidJson
| Body (text voice model : option string).

Inductive Upstream :=
| FetchThrows
| NotOk (status : Z) (errorText : string)
| Audio (bytes : list Byte.byte).

Inductive Response :=
| JsonError (status : Z) (error : string)
| AudioResponse (body : list Byte.byte) (contentType contentLength : string).

(** The body sent to the upstream speech API. *)
Record Call := { model : string; voice : string; input : string }.

Definition orDefault (x : option string) (d : string) : string :=
  match x with Some v => v | None => d end.

(** [!apiKey || apiKey === 'your_openai_api_key_here']. *)
Definition keyMissing (apiKey : option string) : bool :=
  match apiKey with
  | None | Some EmptyString => true
  | Some key => String.eqb key "your_openai_api_key_here"
  end.

Definition status (r : Response) : Z :=
  match r with
  | JsonError st _ => st
  | AudioResponse _ _ _ => 200
  end.

(** The part both versions of the route share: the upstream call and
    what is made of its answer. *)
Definition synthesize (text : string) (voice model : option string)
           (upstream : Upstream) : Response * list Call :=
  let calls :=
    [{| model := orDefault model "tts-1"; voice := orDefault voice "nova";
        input := text |}] in
  match upstream with
  | FetchThrows | NotOk _ _ =>
      (JsonError 500 "Failed to generate speech", calls)
  | Audio bytes =>
      (AudioResponse bytes "audio/mpeg"
         (NilZero.string_of_uint (N.to_uint (N.of_nat (List.length bytes)))),
       calls)
  end.

(** The route of the web application; [apiKey] is
    [process.env.OPENAI_API_KEY]. *)
Definition POST (apiKey : option string) (request : Request)
           (upstream : Upstream) : Response * list Call :=
  match request with
  | InvalidJson => (JsonError 500 "Failed to generate speech", [])
  | Body None _ _ | Body (Some EmptyString) _ _ =>
      (JsonError 400 "Text is required", [])
  | Body (Some text) voice model =>
      if keyMissing apiKey
      then (JsonError 503
              "OpenAI API key not configured. Please set OPENAI_API_KEY in your environment variables.",
            [])
      else synthesize text voice model upstream
  end.

(** The version of the route without the check of the key. *)
Definition POST_unchecked (request : Request) (upstream : Upstream)
  : Response * list Call :=
  match request with
  | InvalidJson => (JsonError 500 "Failed to generate speech", [])
  | Body None _ _ | Body (Some EmptyString) _ _ =>
      (JsonError 400 "Text is required", [])
  | Body (Some text) voice model => synthesize text voice model upstream
  end.

End Tts.

(** ** The donations page *)

Module Donations.
Import JsString.

(** A donation; its amount is a JavaScript number, here an integer of
    either sign. *)
Record Donation := {
  id : string;
  amount : Z;
  date : string;
  contact : string;
  status : string
}.

Definition mockDonations (slug : string) : list Donation :=
  if String.eqb slug "tokyo-voice-ai" then
    [{| id := "1"; amount := 15000; date := "2024-10-25"; contact := "Alex.Inc (Sponsor)"; status := "sent" |};
     {| id := "2"; amount := 10000; date := "2024-10-25"; contact := "Buddy.AI (Sponsor)"; status := "sent" |};
     {| id := "3"; amount := 5000; date := "2024-10-25"; contact := "CyberAce (Sponsor)"; status := "sent" |};
     {| id := "4"; amount := 5000; date := "2024-10-25"; contact := "Yosuke Yasuda (Sponsor)"; status := "sent" |};
     {| id := "5"; amount := 3000; date := "2024-10-25"; contact := "Bye: AI (Sponsor)"; status := "sent" |};
     {| id := "6"; amount := 3000; date := "2024-10-25"; contact := "Hackathon Prize Pool"; status := "sent" |};
     {| id := "7"; amount := 2000; date := "2024-10-24"; contact := "Tokyo Tech Community"; status := "sent" |};
     {| id := "8"; amount := 1500; date := "2024-10-24"; contact := "Ameba Partnership"; status := "pending" |};
     {| id := "9"; amount := 1000; date := "2024-10-23"; contact := "Voice AI Enthusiasts"; status := "sent" |};
     {| id := "10"; amount := 500; date := "2024-10-23"; contact := "Local Developer Group"; status := "sent" |}]
  else
    [{| id := "1"; amount := 250; date := "2024-01-15"; contact := "John Smith"; status := "sent" |};
     {| id := "2"; amount := 500; date := "2024-01-14"; contact := "Jane Doe"; status := "pending" |};
     {| id := "3"; amount := 100; date := "2024-01-13"; contact := "Bob Johnson"; status := "sent" |};
     {| id := "4"; amount := 1000; date := "2024-01-12"; contact := "Alice Brown"; status := "sent" |};
     {| id := "5"; amount := 75; date := "2024-01-11"; contact := "Charlie Wilson"; status := "none" |}].

(** [donations.reduce((sum, d) => sum + d.amount, 0)]. *)
Definition sumAmounts (donations : list Donation) : Z :=
  fold_left (fun sum d => sum + amount d) donations 0.

Definition totalDonations (donations : list Donation) : Z :=
  sumAmounts donations.

Definition ytdDonations (donations : list Donation) : Z :=
  sumAmounts (filter (fun d => startsWith "2024" (date d)) donations).

(** The size of the set of contacts. *)
Definition totalDonors (donations : list Donation) : nat :=
  List.length (nodup string_dec (map contact donations)).

Definition pendingThankYous (donations : list Donation) : nat :=
  List.length (filter (fun d => String.eqb (status d) "pending") donations).

(** [donations.reduce((max, d) => d.amount > max.amount ? d : max,
    donations[0])]; of an empty list there is no first element and the
    result is undefined. *)
Definition biggestDonation (donations : list Donation) : option Donation :=
  match donations with
  | [] => None
  | first :: _ =>
      Some (fold_left
              (fun max d => if amount max <? amount d then d else max)
              donations first)
  end.

(** The effect that writes [window.biggestDonationInfo]: it runs when
    the tenant of the page exists, and overwrites what an earlier page
    left; otherwise the global keeps its value. *)
Definition visit (tenantFound : bool) (slug : string)
           (cache : option Voice.DonationInfo) : option Voice.DonationInfo :=
  if tenantFound then
    match biggestDonation (mockDonations slug) with
    | Some d =>
        Some {| Voice.donor := contact d; Voice.amount := amount d;
                Voice.date := date d |}
    | None => cache
    end
  else cache.

End Donations.

(** ** The workspaces page *)

Module Workspaces.
Import JsString.

Inductive Role := Owner | Admin | Editor | Viewer.

Record User := {
  id : string;
  email : string;
  name : string;
  tenants : list (string * Role)
}.

(** An entry of [DEMO_TENANTS]; the list comes from a package outside
    these sources and is an argument of what uses it. *)
Record DemoTenant := {
  demoName : string;
  demoSlug : string;
  palette : list string;
  logoUrl : option string
}.

Record Tenant := {
  tenantId : string;
  tenantName : string;
  slug : string;
  brandingPalette : list string;
  brandingLogoUrl : option string
}.

Definition emailToName : list (string * string) :=
  [("jon@crmblr.com", "Jon Crmblr");
   ("laurie@crmblr.com", "Laurie Sartain");
   ("jon@vcrm.com", "Jon V-CRM");
   ("yosuke@vcrm.com", "Yosuke Yasuda");
   ("avi@vcrm.com", "Avi V-CRM");
   ("axlrose@vcrm.com", "Axl Rose")].

(** [urlParams.get(key) || fallback]. *)
Definition paramOr (param : option string) (fallback : string) : string :=
  match param with
  | None | Some EmptyString => fallback
  | Some v => v
  end.

Definition lookup (key : string) (table : list (string * string))
  : option string :=
  match find (fun '(k, _) => String.eqb k key) table with
  | Some (_, v) => Some v
  | None => None
  end.

Definition makelit : User :=
  {| id := "user-makelit"; email := "sofia@makemag.org";
     name := "Sofia Rodriguez"; tenants := [("demo-makelit", Owner)] |}.

(** [simulateUserLogin], from the [user] and [email] parameters of the
    address.  The name of a superuser is looked up in the table by the
    address; an address that is a property name of every object, such as
    [constructor], is outside this embedding. *)
Definition simulateUserLogin (userParam emailParam : option string) : User :=
  let demoUser := paramOr userParam "makelit" in
  if String.eqb demoUser "makelit" then makelit
  else if String.eqb demoUser "1in6" then
    {| id := "user-1in6"; email := "ops@1in6.org";
       name := "Operations Manager"; tenants := [("demo-oneinsix", Admin)] |}
  else if String.eqb demoUser "fallenfruit" then
    {| id := "user-fallenfruit"; email := "team@fallenfruit.org";
       name := "Team Lead"; tenants := [("demo-fallenfruit", Owner)] |}
  else if String.eqb demoUser "homeboy" then
    {| id := "user-homeboy"; email := "it@homeboyindustries.org";
       name := "IT Manager"; tenants := [("demo-homeboy", Admin)] |}
  else if String.eqb demoUser "superuser" then
    let userEmail := paramOr emailParam "jon@crmblr.com" in
    {| id := "user-superuser";
       email := userEmail;
       name := paramOr (lookup userEmail emailToName) "Super User";
       tenants :=
         if String.eqb userEmail "jon@vcrm.com"
         then [("tokyo-voice-ai", Admin); ("alex-ai", Admin);
               ("alex-inc-ai", Admin)]
         else [("tokyo-voice-ai", Admin); ("alex-ai", Admin);
               ("alex-inc-ai", Admin); ("demo-makelit", Admin);
               ("demo-oneinsix", Admin); ("demo-fallenfruit", Admin);
               ("demo-homeboy", Admin)] |}
  else makelit.

(** Whether the user may open the tenant. *)
Definition permitted (userTenantIds : list string) (t : DemoTenant) : bool :=
  arrayIncludes ("demo-" ++ demoSlug t)%string userTenantIds
  || arrayIncludes (demoSlug t) userTenantIds.

Definition filteredTenants (demoTenants : list DemoTenant) (userData : User)
  : list Tenant :=
  let userTenantIds := map fst (tenants userData) in
  map (fun t =>
         {| tenantId := demoSlug t; tenantName := demoName t;
            slug := demoSlug t; brandingPalette := palette t;
            brandingLogoUrl := logoUrl t |})
      (filter (permitted userTenantIds) demoTenants).

(** [handleTenantSelect]: where opening a workspace leads. *)
Definition handleTenantSelect (t : Tenant) : string := ("/t/" ++ slug t)%string.

End Workspaces.

(** ** How the assistant meets the routes *)

Module Wiring.
Import JsString.

(** [response.ok]. *)
Definition ok (status : Z) : bool := (200 <=? status) && (status <=? 299).

(** What [processVoiceCommand] makes of the response of a chat proxy:
    the [answer] of a success, printed as a string. *)
Definition replyOf (r : Mood.Response) : Voice.QueryResult :=
  if ok (Mood.status r) then
    match Mood.body r with
    | Mood.Answer answer _ => Voice.QueryOk answer
    | Mood.Error _ => Voice.QueryOk "undefined"
    end
  else Voice.QueryNotOk.

(** The request [speakWithOpenAI] sends to the speech proxy. *)
Definition ttsRequest (text : string) : Tts.Request :=
  Tts.Body (Some text) (Some "nova") (Some "tts-1").

(** What [speakWithOpenAI] makes of the response of the speech proxy;
    [signals] is what the audio element reports if there is audio. *)
Definition hostedOutcomeOf (r : Tts.Response) (signals : list Voice.AudioSignal)
  : Voice.HostedOutcome :=
  if ok (Tts.status r) then Voice.TtsAudio signals
  else Voice.TtsNotOk (Tts.status r).

End Wiring.

(** * Properties *)

Import JsString.

(** ** Facts about the string operations *)

Section StringFacts.

Lemma startsWith_spec (p s : string) :
  startsWith p s = true <-> exists rest, s = (p ++ rest)%string.
Proof.
  revert s; induction p as [|a p IH]; intros s; simpl.
  - split; [intros _; now exists s | reflexivity].
  - destruct s as [|b s]; simpl.
    + split; [discriminate | intros [rest H]; discriminate].
    + rewrite andb_true_iff, Ascii.eqb_eq, IH. split.
      * intros [-> [rest ->]]. now exists rest.
      * intros [rest H]. injection H as -> ->. split; [reflexivity|now exists rest].
Qed.

(** [includes] finds exactly the substrings. *)
Lemma includes_spec (sub s : string) :
  includes sub s = true <->
  exists before after, s = (before ++ sub ++ after)%string.
Proof.
  induction s as [|c s IH].
  - cbn [includes]. rewrite orb_false_r, startsWith_spec. split.
    + intros [rest ->]. now exists EmptyString, rest.
    + intros [[|b before] [after H]]; [now exists after|discriminate].
  - cbn [includes]. rewrite orb_true_iff, startsWith_spec, IH. split.
    + intros [[rest ->] | [before [after ->]]].
      * now exists EmptyString, rest.
      * now exists (String c before), after.
    + intros [[|b before] [after H]].
      * left. now exists after.
      * right. injection H as -> ->. now exists before, after.
Qed.

Lemma includes_empty (sub : string) :
  sub <> EmptyString -> includes sub EmptyString = false.
Proof. destruct sub; [congruence | reflexivity]. Qed.

(** A string without white space is one piece for [split " "]. *)
Lemma split_no_white (s : string) :
  hasWhite s = false -> split " " s = [s].
Proof.
  induction s as [|c s IH]; simpl; [reflexivity|].
  rewrite orb_false_iff. intros [Hc Hs].
  destruct (Ascii.eqb c " ") eqn:E.
  - apply Ascii.eqb_eq in E. subst c. discriminate.
  - now rewrite (IH Hs).
Qed.

Lemma trimEnd_tail (c : ascii) (s : string) :
  trimEnd (String c s) = String c s -> trimEnd s = s.
Proof.
  simpl. destruct (trimEnd s) eqn:E.
  - destruct (isWhite c); [discriminate|]. now injection 1 as <-.
  - now injection 1 as <-.
Qed.

Lemma trimEnd_white_head (c : ascii) (s : string) :
  trimEnd (String c s) = String c s -> isWhite c = true ->
  s <> EmptyString.
Proof. intros H Hc ->. simpl in H. rewrite Hc in H. discriminate. Qed.

Lemma trimEnd_idempotent (s : string) : trimEnd (trimEnd s) = trimEnd s.
Proof.
  induction s as [|c s IH]; simpl; [reflexivity|].
  destruct (trimEnd s) as [|d t] eqn:E.
  - destruct (isWhite c) eqn:Hc; simpl; [reflexivity|now rewrite Hc].
  - simpl in *. now rewrite IH.
Qed.

(** A non-empty string that does not end in white space has a word. *)
Lemma countWords_nonempty (s : string) :
  s <> EmptyString -> trimEnd s = s -> (1 <= countWords false s)%nat.
Proof.
  induction s as [|c s IH]; [congruence|]. intros _ H. simpl.
  destruct (isWhite c) eqn:Hc; [|lia].
  apply IH; [eapply trimEnd_white_head; eassumption|eapply trimEnd_tail; eassumption].
Qed.

(** After white space inside it, such a string starts a further word. *)
Lemma countWords_after_white (s : string) (inWord : bool) :
  hasWhite s = true -> trimEnd s = s -> (1 <= countWords inWord s)%nat.
Proof.
  revert inWord. induction s as [|c s IH]; [discriminate|].
  intros inWord Hw H. simpl in Hw |- *.
  destruct (isWhite c) eqn:Hc.
  - apply countWords_nonempty;
      [eapply trimEnd_white_head; eassumption|eapply trimEnd_tail; eassumption].
  - simpl in Hw. specialize (IH true Hw (trimEnd_tail _ _ H)). lia.
Qed.

Lemma trimStart_head (s : string) :
  match trimStart s with
  | EmptyString => True
  | String c _ => isWhite c = false
  end.
Proof.
  induction s as [|c s IH]; simpl; [exact I|].
  destruct (isWhite c) eqn:Hc; [exact IH|exact Hc].
Qed.

Lemma trimEnd_head (c : ascii) (s : string) :
  isWhite c = false -> exists t, trimEnd (String c s) = String c t.
Proof.
  intros Hc. simpl. destruct (trimEnd s) as [|d t].
  - rewrite Hc. now exists EmptyString.
  - now exists (String d t).
Qed.

(** A trimmed string with fewer than two words has no white space. *)
Lemma trim_single_word (s : string) :
  (wordCount (trim s) < 2)%nat -> hasWhite (trim s) = false.
Proof.
  unfold wordCount. intros Hn.
  assert (Hidem : trimEnd (trim s) = trim s) by apply trimEnd_idempotent.
  unfold trim in *. pose proof (trimStart_head s) as Hhead.
  destruct (trimStart s) as [|c u]; [reflexivity|].
  destruct (trimEnd_head c u Hhead) as [t Ht]. rewrite Ht in *.
  simpl in Hn |- *. rewrite Hhead in Hn |- *. simpl.
  destruct (hasWhite t) eqn:Hw; [|reflexivity].
  pose proof (countWords_after_white t true Hw (trimEnd_tail _ _ Hidem)). lia.
Qed.

Lemma arrayIncludes_In (x : string) (l : list string) :
  arrayIncludes x l = true <-> In x l.
Proof.
  unfold arrayIncludes. rewrite existsb_exists. split.
  - intros [y [Hy E]]. apply String.eqb_eq in E. now subst.
  - intros H. exists x. split; [exact H|apply String.eqb_refl].
Qed.

End StringFacts.

(** ** The mood endpoint *)

Import Voice.

(** C7.  A request to the mood endpoint whose query, in lower case,
    contains one of the self-harm keywords is answered with the fixed
    safety response and the original query, and no call of the upstream
    language-model API is made, whatever that API would have said. *)
Theorem mood_sensitive_short_circuit :
  forall (query keyword : string) (upstream : Mood.Upstream),
    In keyword Mood.sensitiveKeywords ->
    includes keyword (toLowerCase query) = true ->
    Mood.POST (Mood.Body (Some query)) upstream
    = ({| Mood.status := 200;
          Mood.body := Mood.Answer Mood.safetyResponse query |}, []).
Proof.
  intros query keyword upstream Hin Hinc.
  assert (Hs : Mood.isSensitive query = true).
  { unfold Mood.isSensitive, some. apply existsb_exists. now exists keyword. }
  destruct query as [|c q].
  - exfalso. cbn [toLowerCase] in Hinc.
    rewrite includes_empty in Hinc; [discriminate|].
    intros ->. simpl in Hin. intuition discriminate.
  - unfold Mood.POST. now rewrite Hs.
Qed.

Lemma mood_sensitive_short_circuit_witness :
  Mood.POST (Mood.Body (Some "I want to hurt myself")) Mood.FetchThrows
  = ({| Mood.status := 200;
        Mood.body := Mood.Answer Mood.safetyResponse "I want to hurt myself" |},
     []).
Proof.
  apply (mood_sensitive_short_circuit "I want to hurt myself" "hurt myself").
  - simpl. left. reflexivity.
  - vm_compute. reflexivity.
Defined.

(** Without a keyword the handler goes on; a query no table knows
    reaches the upstream API. *)
Example mood_neutral_query_calls_upstream :
  Mood.POST (Mood.Body (Some "Tell me a story"))
            (Mood.Completion (Some "Once upon a time"))
  = ({| Mood.status := 200;
        Mood.body := Mood.Answer "Once upon a time" "Tell me a story" |},
     [Mood.ChatCompletion "Tell me a story"]).
Proof. vm_compute. reflexivity. Qed.

(** ** Speech capture *)

(** C9.  A batch of recognition results whose final transcript is
    shorter than 5 characters once trimmed, or whose trimmed lower-case
    form is an entry of the noise-word list, emits nothing: no data
    message is published and no command is scheduled for the
    dispatcher; the session keeps its state but for the interim text on
    display.  This holds for the handler of every render. *)
Theorem capture_discards_short_and_noise :
  forall (cl st : Session) (now : Z) (event : RecognitionEvent),
    let batch := skipn (resultIndex event) (results event) in
    let finalTranscript := collect true batch in
    (String.length (trim finalTranscript) < 5)%nat
    \/ In (toLowerCase (trim finalTranscript)) noisePatterns ->
    snd (onresult cl st now event) = []
    /\ fst (onresult cl st now event)
       = (if nonEmpty (collect false batch)
          then setTranscript (collect false batch) st else st).
Proof.
  intros cl st now event batch finalTranscript H.
  unfold onresult. fold batch. fold finalTranscript.
  destruct (negb (nonEmpty finalTranscript)); [now split|].
  destruct (String.length (trim finalTranscript) <? 5)%nat eqn:Hlen;
    [now split|].
  destruct (lowConfidence (results event)); [now split|].
  destruct H as [H|H].
  - apply Nat.ltb_ge in Hlen. lia.
  - apply arrayIncludes_In in H. rewrite H. now split.
Qed.

Lemma capture_discards_short_and_noise_witness :
  snd (onresult initialSession connectedSession 1730000000000
         (finalResult " Hello " (Some (95 # 100)))) = []
  /\ snd (onresult initialSession connectedSession 1730000000000
            (finalResult "um" (Some (95 # 100)))) = [].
Proof.
  split.
  - apply (capture_discards_short_and_noise initialSession connectedSession
             1730000000000 (finalResult " Hello " (Some (95 # 100)))).
    right. vm_compute. tauto.
  - apply (capture_discards_short_and_noise initialSession connectedSession
             1730000000000 (finalResult "um" (Some (95 # 100)))).
    left. vm_compute. lia.
Defined.

(** ** The dispatcher's guards *)

Section Guards.

Variables (env : Env) (st : Session) (now : Z) (command : string)
          (reply : QueryResult).

Lemma busy_flags (s : Session) :
  busy s = true <->
  isSpeaking s = true \/ isProcessing s = true
  \/ isProcessingCommand s = true.
Proof.
  unfold busy. rewrite !orb_true_iff. tauto.
Qed.

Lemma process_busy :
  busy st = true ->
  processVoiceCommand env st now command reply = ignored st Busy.
Proof. intros H. unfold processVoiceCommand. now rewrite H. Qed.

Lemma process_too_recent (last : Z) :
  lastProcessedTimestamp st = Some last ->
  now - last < 3000 ->
  exists why, processVoiceCommand env st now command reply = ignored st why.
Proof.
  intros Hlast Hlt. unfold processVoiceCommand.
  destruct (busy st); [now exists Busy|].
  destruct (String.eqb _ _); [now exists SameCommand|].
  destruct (_ && _ && _); [now exists TooShort|].
  rewrite Hlast. apply Z.ltb_lt in Hlt. rewrite Hlt. now exists TooRecent.
Qed.

Lemma process_single_word :
  let normalizedCommand := trim (toLowerCase command) in
  hasWhite normalizedCommand = false ->
  includes "help" normalizedCommand = false ->
  includes "stop" normalizedCommand = false ->
  exists why, processVoiceCommand env st now command reply = ignored st why.
Proof.
  intros normalizedCommand Hw Hhelp Hstop. unfold processVoiceCommand.
  destruct (busy st); [now exists Busy|].
  destruct (String.eqb _ _); [now exists SameCommand|].
  fold normalizedCommand.
  rewrite (split_no_white _ Hw), Hhelp, Hstop. now exists TooShort.
Qed.

(** A call either leaves everything as it was, or stamps the command
    and the time on the session. *)
Lemma process_ignored_or_stamped :
  let d := processVoiceCommand env st now command reply in
  (exists why, d = ignored st why)
  \/ (dispatched d = true
      /\ lastProcessedTimestamp (state d) = Some now
      /\ lastProcessedCommand (state d) = trim (toLowerCase command)).
Proof.
  unfold processVoiceCommand.
  destruct (busy st); [left; now exists Busy|].
  destruct (String.eqb _ _); [left; now exists SameCommand|].
  destruct (_ && _ && _); [left; now exists TooShort|].
  destruct (_ <? _); [left; now exists TooRecent|].
  right. destruct st as [? lis ? ? ? ? ? proc ? ? pcmd ? ? ? stopRef ? ? ? ? ? ?].
  destruct (classify (toLowerCase command)); cbn -[localResponse];
    try (destruct (localResponse _ _ _); cbn); auto.
  unfold stopSpeaking, speakOnEnd, idleIf, mayIdle.
  destruct stopRef as [[[|] [| |? [?|]]]|], lis, proc, pcmd; cbn; auto.
Qed.

Lemma ignored_not_dispatched (why : Rejection) :
  dispatched (ignored st why) = false.
Proof. reflexivity. Qed.

(** Called from the render of the session it acts on, the dispatcher
    of any render is [processVoiceCommand]. *)
Lemma process_in_own_render :
  processVoiceCommandIn env st st now command reply
  = processVoiceCommand env st now command reply.
Proof. reflexivity. Qed.

(** The first guard looks at the render of the caller only. *)
Lemma process_in_busy (cl : Session) :
  busy cl = true ->
  processVoiceCommandIn env cl st now command reply = ignored st Busy.
Proof. intros H. unfold processVoiceCommandIn. now rewrite H. Qed.

(** So a handler of a render that was not busy never meets it: the
    flags of the session play no part in what the call decides. *)
Lemma process_in_ignores_session_flags (cl : Session) (a b c : bool) :
  let st' := setIsProcessingCommand a (setIsSpeaking b (setIsProcessing c st)) in
  outcome (processVoiceCommandIn env cl st' now command reply)
  = outcome (processVoiceCommandIn env cl st now command reply).
Proof.
  intros st'. subst st'. unfold processVoiceCommandIn.
  destruct st as [? lis ? ? ? ? ? proc ? ? pcmd ? ? ? stopRef ? ? ? ? ? ?].
  cbn [lastProcessedCommand lastProcessedTimestamp setIsProcessingCommand
       setIsSpeaking setIsProcessing].
  destruct (busy cl); [reflexivity|].
  destruct (String.eqb _ _); [reflexivity|].
  destruct (_ && _ && _); [reflexivity|].
  destruct (_ <? _); [reflexivity|].
  destruct (classify (toLowerCase command)); cbn -[localResponse];
    try (destruct (localResponse _ _ _); cbn); try reflexivity.
  unfold stopSpeaking.
  cbn [stopSpeakingRef setAvatarState setIsProcessing setIsProcessingCommand
       setLastProcessedTimestamp setLastProcessedCommand].
  destruct stopRef as [f|]; [|reflexivity].
  repeat match goal with
         | |- context [let '(_, _) := ?x in _] => destruct x
         end.
  reflexivity.
Qed.

(** The session as a function of the render [cl] sees it: the refs and
    the rest of [st], with the four flags the dispatcher reads as [cl]
    has them. *)
Let seenFrom (cl : Session) : Session :=
  setIsListening (isListening cl)
    (setIsProcessingCommand (isProcessingCommand cl)
       (setIsSpeaking (isSpeaking cl)
          (setIsProcessing (isProcessing cl) st))).

(** What a call from any render answers, asks of the browser and
    stamps on the ref is what [processVoiceCommand] does on the session
    as that render sees it.  So what holds of [processVoiceCommand] on
    every session holds of every call the handlers make. *)
Lemma process_in_as_own_render (cl : Session) :
  let d := processVoiceCommandIn env cl st now command reply in
  let d' := processVoiceCommand env (seenFrom cl) now command reply in
  outcome d = outcome d' /\ effects d = effects d'
  /\ lastProcessedCommand (state d) = lastProcessedCommand (state d')
  /\ lastProcessedTimestamp (state d) = lastProcessedTimestamp (state d').
Proof.
  subst seenFrom. unfold processVoiceCommandIn, processVoiceCommand.
  destruct st as [? lis ? spk ? ? ? proc ? ? pcmd ? ? ? stopRef ? ? rec ? ? ?].
  destruct cl as [? lis' ? spk' ? ? ? proc' ? ? pcmd' ? ? ? ? ? ? ? ? ? ?].
  unfold busy.
  cbn [isListening isProcessingCommand isSpeaking isProcessing
       setIsListening setIsProcessingCommand setIsSpeaking setIsProcessing
       lastProcessedCommand lastProcessedTimestamp].
  repeat match goal with
         | |- context [if ?b then ignored _ _ else _] =>
             destruct b; [repeat split; reflexivity|]
         end.
  destruct (classify (toLowerCase command)); cbn -[localResponse];
    try (destruct (localResponse _ _ _); cbn); try (repeat split; reflexivity).
  unfold stopSpeaking, speakOnEnd, idleIf, mayIdle.
  destruct stopRef as [[[|] [| |? [?|]]]|], lis', proc', pcmd'; cbn;
    repeat split; reflexivity.
Qed.

End Guards.

(** C3, as the code has it.  Once a command has been dispatched at
    time [t1], the same command submitted again less than 3 seconds
    later is rejected by one of the guards: the session it finds is
    returned unchanged and no effect is produced, so no intent is
    executed.  The second call may find any session whose time stamp
    is still the one the first call left, whatever happened to the
    flags in between. *)
Theorem duplicate_within_three_seconds_rejected :
  forall (env env' : Env) (st st' : Session) (t1 t2 : Z) (command : string)
         (reply reply' : QueryResult),
    let first := processVoiceCommand env st t1 command reply in
    dispatched first = true ->
    lastProcessedTimestamp st' = lastProcessedTimestamp (state first) ->
    t2 - t1 < 3000 ->
    exists why,
      processVoiceCommand env' st' t2 command reply'
      = {| state := st'; effects := []; outcome := Ignored why |}.
Proof.
  intros env env' st st' t1 t2 command reply reply' first Hd Hstamp Hlt.
  destruct (process_ignored_or_stamped env st t1 command reply)
    as [[why Hign] | [_ [Ht _]]].
  - unfold first in Hd. rewrite Hign in Hd. discriminate.
  - fold first in Ht. rewrite Ht in Hstamp.
    exact (process_too_recent env' st' t2 command reply' t1 Hstamp Hlt).
Qed.

Lemma duplicate_within_three_seconds_rejected_witness :
  let first :=
    processVoiceCommand demoEnv connectedSession 1730000000000
                        "show me the sales pipeline" QueryThrows in
  exists why,
    processVoiceCommand demoEnv (state first) 1730000002999
                        "show me the sales pipeline" QueryThrows
    = {| state := state first; effects := []; outcome := Ignored why |}.
Proof.
  intros first.
  apply (duplicate_within_three_seconds_rejected
           demoEnv demoEnv connectedSession (state first)
           1730000000000 1730000002999 "show me the sales pipeline"
           QueryThrows QueryThrows).
  - vm_compute. reflexivity.
  - reflexivity.
  - lia.
Defined.

(** C3 as stated fails for a pair whose first command was itself
    refused.  [stop talking] is dispatched at [t0]; 2.5 s later [show me
    the sales pipeline] is refused as too recent, and leaves no trace;
    the same command, 0.7 s after that, is dispatched. *)
Lemma refused_first_lets_second_through :
  let t0 := 1730000000000 in
  let command := "show me the sales pipeline" in
  let stop :=
    processVoiceCommand demoEnv connectedSession t0 "stop talking"
                        QueryThrows in
  let first :=
    processVoiceCommand demoEnv (state stop) (t0 + 2500) command
                        QueryThrows in
  let second :=
    processVoiceCommand demoEnv (state first) (t0 + 3200) command
                        QueryThrows in
  dispatched stop = true
  /\ first = ignored (state stop) TooRecent
  /\ (t0 + 3200) - (t0 + 2500) < 3000
  /\ dispatched second = true
  /\ outcome second
     = Spoke "Let me show you the sales pipeline!"
             (Some "/t/tokyo-voice-ai/pipeline").
Proof.
  vm_compute. repeat split; reflexivity.
Qed.

(** The flags alone do not stop the second command once the first has
    finished speaking; the time stamp does. *)
Example duplicate_rejected_by_time_stamp :
  let first :=
    processVoiceCommand demoEnv connectedSession 1730000000000
                        "stop talking" QueryThrows in
  busy (state first) = false
  /\ outcome (processVoiceCommand demoEnv
                (setLastProcessedCommand "" (state first)) 1730000002999
                "stop talking" QueryThrows)
     = Ignored TooRecent.
Proof. vm_compute. split; reflexivity. Qed.

(** What the guard does hold for: the flags of the render a function
    belongs to.  If one of them is set there, the dispatcher of that
    render returns at its first guard, the timer armed by its speech
    capture does nothing, its handler of the room's transcripts
    dispatches nothing, and its speech capture arms no timer. *)
Lemma busy_render_refuses_command :
  forall (env : Env) (cl st : Session) (now : Z) (command : string)
         (reply : QueryResult),
    isSpeaking cl = true \/ isProcessing cl = true
    \/ isProcessingCommand cl = true ->
    processVoiceCommandIn env cl st now command reply
    = {| state := st; effects := []; outcome := Ignored Busy |}
    /\ runTask env cl st now (ProcessCommand command) reply = (st, [])
    /\ hostedRequests
         (snd (onDataReceived env cl st now (TranscriptMessage command) reply))
       = []
    /\ forall event,
        ~ In (SetTimeout (ProcessCommand command) 500)
             (snd (onresult cl st now event)).
Proof.
  intros env cl st now command reply Hflags.
  apply busy_flags in Hflags. split; [|split; [|split]].
  - now apply process_in_busy.
  - simpl. now rewrite Hflags.
  - cbn [onDataReceived]. rewrite Hflags. cbn [negb snd].
    now destruct (onTranscript env).
  - intros event. unfold onresult.
    repeat match goal with
           | |- context [if ?b then (_, []) else _] =>
               destruct b; [simpl; tauto|]
           end.
    rewrite Hflags. cbn [snd negb when]. rewrite app_nil_r.
    destruct (roomRef st); simpl; [|tauto].
    intros [H|[]]. discriminate.
Qed.

(** C4.  The flags the guards read are not those of the session: the
    handler of the room's data messages and the handler of the
    recogniser are registered once, by the render that connects, and
    keep the flags of that render, all unset.  The room delivers
    [show me the sales pipeline]; the command is dispatched and the
    session has [isProcessing] and [isProcessingCommand] set while the
    answer is synthesised.  Four seconds later, the answer not yet
    played, the room delivers [open the calendar]: the handler
    dispatches it as well: the session is stamped with the new command
    and a second synthesis request goes out.  The same command heard
    by the recogniser is scheduled and, when its timer fires,
    dispatched. *)
Theorem busy_session_dispatches_second_command :
  let t0 := 1730000000000 in
  let first :=
    onDataReceived demoEnv initialSession connectedSession t0
                   (TranscriptMessage "show me the sales pipeline")
                   QueryThrows in
  let live := fst first in
  let second :=
    onDataReceived demoEnv initialSession live (t0 + 4000)
                   (TranscriptMessage "open the calendar") QueryThrows in
  let heard :=
    onresult initialSession live (t0 + 4000)
             (finalResult "open the calendar" (Some (9 # 10))) in
  let fired :=
    runTask demoEnv initialSession (fst heard) (t0 + 4500)
            (ProcessCommand "open the calendar") QueryThrows in
  (isProcessing live = true /\ isProcessingCommand live = true)
  /\ hostedRequests (snd first)
     = [("Let me show you the sales pipeline!",
         CommandDone "show me the sales pipeline"
                     (Some "/t/tokyo-voice-ai/pipeline"))]
  /\ (fst second <> setTranscript "open the calendar" live
      /\ lastProcessedCommand (fst second) = "open the calendar"
      /\ lastProcessedTimestamp (fst second) = Some (t0 + 4000)
      /\ hostedRequests (snd second)
         = [("Let's check your calendar!",
             CommandDone "open the calendar"
                         (Some "/t/tokyo-voice-ai/calendar"))])
  /\ (In (SetTimeout (ProcessCommand "open the calendar") 500) (snd heard)
      /\ hostedRequests (snd fired)
         = [("Let's check your calendar!",
             CommandDone "open the calendar"
                         (Some "/t/tokyo-voice-ai/calendar"))]).
Proof.
  vm_compute.
  repeat split; try reflexivity.
  - discriminate.
  - right. left. reflexivity.
Qed.

(** On the machine of the operations in flight, the two commands are
    two hosted synthesis attempts in flight at once. *)
Example two_commands_in_flight :
  let t0 := 1730000000000 in
  List.length
    (inFlight
       (run demoEnv initialSession freshWorld
            [DataReceived (TranscriptMessage "show me the sales pipeline")
                          t0 QueryThrows;
             DataReceived (TranscriptMessage "open the calendar")
                          (t0 + 4000) QueryThrows])) = 2%nat.
Proof. vm_compute. reflexivity. Qed.

(** Nor is there a guard on the speech output the room asks for: two
    [response] data messages start two hosted synthesis attempts, the
    second while the first has not settled, since the handler calls
    [speak] without looking at any flag.  So even a guard that held
    would not bound the speech outputs in flight. *)
Lemma two_speech_outputs_in_flight :
  ~ ((forall env st now command reply,
         busy st = true ->
         processVoiceCommand env st now command reply = ignored st Busy)
     /\ (forall env cl events,
           (List.length (inFlight (run env cl freshWorld events)) <= 1)%nat)).
Proof.
  intros [_ H].
  specialize (H demoEnv initialSession
                [DataReceived (ResponseMessage "Hello") 1730000000000 QueryThrows;
                 DataReceived (ResponseMessage "Welcome back") 1730000000100
                              QueryThrows]).
  vm_compute in H. lia.
Qed.

(** C10.  A command whose normalised text has fewer than two words and
    contains neither [help] nor [stop] is returned by one of the
    guards: session unchanged, no effect, hence no intent executed and
    nothing spoken.  The single word [pipeline] is such a command,
    although speech capture, with enough confidence, schedules it for
    the dispatcher (its handler being that of a render that was not
    busy). *)
Theorem single_word_command_not_dispatched :
  (forall (env : Env) (st : Session) (now : Z) (command : string)
          (reply : QueryResult),
      let normalizedCommand := trim (toLowerCase command) in
      (wordCount normalizedCommand < 2)%nat ->
      includes "help" normalizedCommand = false ->
      includes "stop" normalizedCommand = false ->
      exists why,
        processVoiceCommand env st now command reply
        = {| state := st; effects := []; outcome := Ignored why |})
  /\ (forall (cl st : Session) (now : Z) (c : Q),
         busy cl = false ->
         Qle minConfidence c ->
         In (SetTimeout (ProcessCommand "pipeline") 500)
            (snd (onresult cl st now (finalResult "pipeline" (Some c))))).
Proof.
  split.
  - intros env st now command reply normalizedCommand Hn Hhelp Hstop.
    apply process_single_word; [|assumption|assumption].
    now apply trim_single_word.
  - intros cl st now c Hbusy Hc. apply Qle_bool_iff in Hc.
    unfold onresult, finalResult, lowConfidence.
    cbn -[Qle_bool minConfidence]. rewrite Hc, Hbusy. cbn.
    apply in_or_app. right. now left.
Qed.

Lemma single_word_command_not_dispatched_witness :
  (exists why,
      processVoiceCommand demoEnv connectedSession 1730000000000 "pipeline"
                          QueryThrows
      = {| state := connectedSession; effects := []; outcome := Ignored why |})
  /\ In (SetTimeout (ProcessCommand "pipeline") 500)
        (snd (onresult initialSession connectedSession 1730000000000
                (finalResult "pipeline" (Some (9 # 10))))).
Proof.
  split.
  - apply (proj1 single_word_command_not_dispatched
             demoEnv connectedSession 1730000000000 "pipeline" QueryThrows).
    + vm_compute. lia.
    + reflexivity.
    + reflexivity.
  - apply (proj2 single_word_command_not_dispatched
             initialSession connectedSession 1730000000000 (9 # 10)).
    + reflexivity.
    + vm_compute. discriminate.
Defined.

(** ** The classifier *)

Section Classifier.

Variable s : string.

Ltac next_guard :=
  match goal with
  | |- context [if guard ?b s then _ else _] =>
      destruct (guard b s) eqn:?; cbv iota
  end.

(** The branch taken passes its test, and no branch before it does. *)
Lemma classify_sound :
  guard (classify s) s = true
  /\ forall b, (position b < position (classify s))%nat -> guard b s = false.
Proof.
  unfold classify.
  repeat (next_guard;
          [split;
           [assumption
           |intros b' Hlt; destruct b'; simpl in Hlt; solve [lia|assumption]]
          |]).
  split; [reflexivity|].
  intros b' Hlt; destruct b'; simpl in Hlt; solve [lia|assumption].
Qed.

(** The first branch whose test holds is the one taken. *)
Lemma classify_complete (b : Branch) :
  guard b s = true ->
  (forall b', (position b' < position b)%nat -> guard b' s = false) ->
  classify s = b.
Proof.
  intros Hb Hearlier.
  destruct (classify_sound) as [Hc Hbefore].
  destruct (Nat.lt_trichotomy (position (classify s)) (position b))
    as [Hlt|[Heq|Hgt]].
  - rewrite (Hearlier _ Hlt) in Hc. discriminate.
  - destruct (classify s), b; simpl in Heq; solve [reflexivity|discriminate].
  - rewrite (Hbefore _ Hgt) in Hb. discriminate.
Qed.

Lemma classify_first_match (b : Branch) :
  classify s = b <->
  guard b s = true
  /\ forall b', (position b' < position b)%nat -> guard b' s = false.
Proof.
  split.
  - intros <-. apply classify_sound.
  - intros [Hb Hearlier]. now apply classify_complete.
Qed.

(** Unless a [find <name>] variant meets rule 5 or rule 6, or the
    biggest-donor branch is taken, the branch taken belongs to the
    first matching rule of the list 1-11. *)
Lemma classify_first_rule :
  findConflict s = false -> classify s <> BiggestDonor ->
  rule (classify s) = firstRule s.
Proof.
  unfold findConflict, firstRule, classify.
  cbn [seq find ruleMatches].
  repeat (next_guard; cbn [orb andb negb rule];
          try discriminate; try (intros _ _; reflexivity);
          try (intros _ H; now elim H)).
  all: destruct (guard FindJonathan s), (guard FindTakua s),
         (guard FindHong s), (guard FindDatz s);
       cbn [orb andb rule]; try discriminate; intros _ _; reflexivity.
Qed.

(** The biggest-donor branch is taken only by utterances that rule 3
    does not match: its test comes after the keywords of rule 3 have
    failed, and asks for none of them. *)
Lemma biggest_donor_outside_rule_three :
  classify s = BiggestDonor ->
  ruleMatches 3 s = false /\ (3 < firstRule s)%nat.
Proof.
  intros H. destruct classify_sound as [_ Hbefore]. rewrite H in Hbefore.
  assert (H1 : guard StopSpeaking s = false) by (apply Hbefore; simpl; lia).
  assert (H2 : guard Pipeline s = false) by (apply Hbefore; simpl; lia).
  assert (H3 : guard Donations s = false) by (apply Hbefore; simpl; lia).
  split; [exact H3|].
  unfold firstRule. cbn [seq find ruleMatches]. rewrite H1, H2, H3.
  repeat match goal with
         | |- context [if ?b then _ else _] => destruct b; try lia
         end.
Qed.

End Classifier.

(** C2, as the code has it.  The classifier is a function of the
    lower-case utterance, so it takes exactly one branch for every
    input; the branch taken is the first one, in the order of the
    source, whose keyword test holds.  That order is the order of the
    rules 1-11 with two departures.  The [find <name>] variants of
    rule 4 are tested after rules 5 and 6.  And the biggest-donor
    answer is a branch of its own, tested between rule 3 and rule 4 on
    the biggest-donor phrases alone: it is taken only by utterances
    that have none of the keywords of rule 3, for which the first
    matching rule of the list is a later one.  For every utterance
    that neither sets a [find <name>] variant against rule 5 or rule 6
    nor takes the biggest-donor branch, the rule taken is the first
    matching rule of 1-11.  [stop the pipeline], which matches rules 1
    and 2, classifies as stop-speaking. *)
Theorem classifier_first_match_in_source_order :
  (forall (s : string) (b : Branch),
      classify s = b <->
      guard b s = true
      /\ forall b', (position b' < position b)%nat -> guard b' s = false)
  /\ (forall s : string,
         findConflict s = false -> classify s <> BiggestDonor ->
         rule (classify s) = firstRule s)
  /\ (forall s : string,
         classify s = BiggestDonor ->
         ruleMatches 3 s = false /\ (3 < firstRule s)%nat)
  /\ (classify "stop the pipeline" = StopSpeaking
      /\ guard Pipeline "stop the pipeline" = true).
Proof.
  split; [|split; [|split]].
  - exact classify_first_match.
  - exact classify_first_rule.
  - exact biggest_donor_outside_rule_three.
  - split; vm_compute; reflexivity.
Qed.

Lemma classifier_first_match_in_source_order_witness :
  classify "show me the sales funnel" = Pipeline
  /\ rule (classify "find jonathan") = firstRule "find jonathan"
  /\ (ruleMatches 3 "who is our top donor" = false
      /\ (3 < firstRule "who is our top donor")%nat).
Proof.
  split; [|split].
  - apply (proj1 classifier_first_match_in_source_order
             "show me the sales funnel" Pipeline).
    split; [vm_compute; reflexivity|].
    intros b' Hlt. destruct b'; simpl in Hlt; try lia. vm_compute. reflexivity.
  - apply (proj1 (proj2 classifier_first_match_in_source_order) "find jonathan").
    + vm_compute. reflexivity.
    + vm_compute. discriminate.
  - apply (proj1 (proj2 (proj2 classifier_first_match_in_source_order))
             "who is our top donor").
    vm_compute. reflexivity.
Defined.

(** C2 as stated fails on the order: [find jonathan in the calendar]
    matches the [find <name>] keywords of rule 4 and the keywords of
    rule 5, and the branch of rule 5 is taken. *)
Lemma find_variant_loses_to_calendar :
  guard FindJonathan "find jonathan in the calendar" = true
  /\ guard Calendar "find jonathan in the calendar" = true
  /\ (rule FindJonathan < rule Calendar)%nat
  /\ classify "find jonathan in the calendar" = Calendar
  /\ ~ (forall s : string, rule (classify s) = firstRule s).
Proof.
  split; [vm_compute; reflexivity|].
  split; [vm_compute; reflexivity|].
  split; [simpl; lia|].
  split; [vm_compute; reflexivity|].
  intros H. specialize (H "find jonathan in the calendar").
  vm_compute in H. discriminate.
Qed.

(** And on the biggest donor: [top donor people] has none of the
    keywords of rule 3 and a keyword of rule 4, yet it is answered
    with the biggest donor and the contacts are not opened. *)
Example top_donor_people_skips_contacts :
  guard Donations "top donor people" = false
  /\ guard Contacts "top donor people" = true
  /\ firstRule "top donor people" = 4%nat
  /\ classify "top donor people" = BiggestDonor
  /\ outcome (processVoiceCommand demoEnv connectedSession 1730000000000
                "top donor people" QueryThrows)
     = Spoke "The biggest donor is Alex Inc with $15,000 donated on 2024-10-25!"
             None.
Proof. vm_compute. repeat split; reflexivity. Qed.

(** ** What a dispatched command answers *)

Section Answers.

Variables (env : Env) (st : Session) (now : Z) (command : string)
          (reply : QueryResult).

Let d := processVoiceCommand env st now command reply.
Let lowerCommand := toLowerCase command.

(** The outcome of a call that got past the guards, by branch. *)
Lemma process_dispatched_outcome :
  dispatched d = true ->
  outcome d
  = match classify lowerCommand with
    | StopSpeaking => Stopped
    | b =>
        match remoteQuery b with
        | Some (_, notOkText, throwsText) =>
            Spoke match reply with
                  | QueryOk answer => answer
                  | QueryNotOk => notOkText
                  | QueryThrows => throwsText
                  end None
        | None =>
            Spoke (fst (localResponse env lowerCommand b))
                  (snd (localResponse env lowerCommand b))
        end
    end.
Proof.
  subst d lowerCommand. unfold processVoiceCommand.
  destruct (busy st); [discriminate|].
  destruct (String.eqb _ _); [discriminate|].
  destruct (_ && _ && _); [discriminate|].
  destruct (_ <? _); [discriminate|].
  intros _.
  destruct (classify (toLowerCase command)); cbn -[localResponse stopSpeaking];
    try (destruct (localResponse _ _ _); reflexivity); try reflexivity.
  destruct (stopSpeaking _ _ _). reflexivity.
Qed.

(** A dispatched command queries a proxy only in the three
    remote-query branches. *)
Lemma process_local_no_fetch :
  remoteQuery (classify lowerCommand) = None ->
  forall url query, ~ In (Fetch url query) (effects d).
Proof.
  subst d lowerCommand. unfold processVoiceCommand.
  destruct (busy st); [simpl; tauto|].
  destruct (String.eqb _ _); [simpl; tauto|].
  destruct (_ && _ && _); [simpl; tauto|].
  destruct (_ <? _); [simpl; tauto|].
  destruct st as [? lis ? ? ? ? ? proc ? ? pcmd ? ? ? stopRef ? ? rec ? ? ?].
  destruct (classify (toLowerCase command)); cbn -[localResponse];
    intros Hq url query; try discriminate;
    try (destruct (localResponse _ _ _); cbn;
         destruct (onTranscript env), rec; cbn; intuition discriminate).
  unfold stopSpeaking, speakOnEnd, idleIf, mayIdle, when.
  destruct stopRef as [[[|] [| |? [?|]]]|], lis, proc, pcmd,
           (onTranscript env), (onCommand env), (speechSynthesis env);
    cbn; intuition discriminate.
Qed.

End Answers.

(** The branch that answers from the cache is never entered by an
    utterance that mentions the quarter: the donations branch before it
    takes all of those. *)
Lemma biggest_donor_branch_excludes_quarter (s : string) :
  classify s = BiggestDonor -> includes "quarter" s = false.
Proof.
  intros H. apply classify_first_match in H. destruct H as [_ Hearlier].
  specialize (Hearlier Donations ltac:(simpl; lia)).
  unfold guard, anyOf, some in Hearlier. simpl in Hearlier.
  destruct (includes "quarter" s); [|reflexivity].
  rewrite orb_true_r in Hearlier. discriminate.
Qed.

(** So the inline answer, when it is given, is the one that names the
    donor of the cache. *)
Lemma biggest_donor_inline_answer (env : Env) (s : string) (info : DonationInfo) :
  classify s = BiggestDonor ->
  biggestDonationInfo env = Some info ->
  localResponse env s BiggestDonor
  = (("The biggest donor is " ++ donor info ++ " with $"
        ++ toLocaleString (amount info) ++ " donated on "
        ++ date info ++ "!")%string, None).
Proof.
  intros Hb Hinfo. unfold localResponse.
  now rewrite Hinfo, (biggest_donor_branch_excludes_quarter s Hb).
Qed.

(** An utterance [biggest donor this quarter] that gets past the guards
    is answered by the donations branch, whatever the cache holds. *)
Lemma biggest_donor_this_quarter_outcome
      (env : Env) (st : Session) (now : Z) (reply : QueryResult) :
  let d := processVoiceCommand env st now "biggest donor this quarter" reply in
  dispatched d = true ->
  outcome d = Spoke "Perfect! Opening donations for this quarter!"
                    (Some (page env "/donations")).
Proof.
  intros d Hd. subst d.
  rewrite (process_dispatched_outcome env st now _ reply Hd). reflexivity.
Qed.

Example who_is_the_biggest_donor :
  outcome (processVoiceCommand demoEnv connectedSession 1730000000000
             "Who is the biggest donor" QueryThrows)
  = Spoke "The biggest donor is Alex Inc with $15,000 donated on 2024-10-25!"
          None.
Proof. vm_compute. reflexivity. Qed.

(** C1, on the code.  With the fact of the claim in the cache and a
    session that accepts the command, [biggest donor this quarter] is
    taken by the donations branch: the assistant says that it opens the
    donations page and navigates there; the phrase of the claim is not
    spoken. *)
Theorem biggest_donor_this_quarter_opens_donations :
  forall reply : QueryResult,
    let d := processVoiceCommand demoEnv connectedSession 1730000000000
                                 "biggest donor this quarter" reply in
    classify "biggest donor this quarter" = Donations
    /\ outcome d = Spoke "Perfect! Opening donations for this quarter!"
                         (Some "/t/tokyo-voice-ai/donations")
    /\ outcome d
       <> Spoke "Alex Inc is the biggest donor this quarter with $15,000 donated on 2024-10-25!"
                None
    /\ effects d
       = [CallOnTranscript "biggest donor this quarter"; RecognitionStop;
          HostedTts "Perfect! Opening donations for this quarter!"
                    (CommandDone "biggest donor this quarter"
                                 (Some "/t/tokyo-voice-ai/donations"))].
Proof.
  intros reply d. subst d. vm_compute. repeat split; discriminate.
Qed.

(** ** Searching the contacts by voice *)

Lemma append_cancel (a b c : string) :
  (a ++ b)%string = (a ++ c)%string -> b = c.
Proof.
  induction a as [|x a IH]; simpl; [tauto|]. intros H. injection H as H. auto.
Qed.

Lemma page_cancel (env : Env) (p q : string) : page env p = page env q -> p = q.
Proof.
  unfold page. intros H. apply append_cancel in H. now apply append_cancel in H.
Qed.

(** A [find] branch is taken only by an utterance that contains
    [find] and, somewhere, the letters of one of the four names. *)
Lemma find_branch_needs_name (s : string) :
  includes "find" s = false
  \/ (includes "jonathan" s = false /\ includes "takua" s = false
      /\ includes "hong" s = false /\ includes "datz" s = false) ->
  searchName (classify s) = None.
Proof.
  intros H. destruct (classify_sound s) as [Hg _].
  destruct (classify s); try reflexivity; cbn [guard] in Hg;
    apply andb_true_iff in Hg; destruct Hg as [Hf Hn];
    destruct H as [H|(H1 & H2 & H3 & H4)]; congruence.
Qed.

(** The names are looked for anywhere in the utterance, not as the
    word after [find]. *)
Example find_hongkong_office_searches_hong :
  outcome (processVoiceCommand demoEnv connectedSession 1730000000000
             "find Hongkong office" QueryThrows)
  = Spoke "Perfect! Let me find Hong for you!"
          (Some "/t/tokyo-voice-ai/contacts?search=Hong").
Proof. vm_compute. reflexivity. Qed.

(** C6, as the code has it.  The search is wired to four names, each
    looked for as a substring of the lower-case utterance.  An
    utterance that contains [find] and one of [jonathan], [takua],
    [hong], [datz], and that no earlier branch of the chain takes, is
    answered by a navigation to the contacts page with that name,
    capitalised, as the search parameter.  No dispatched command
    navigates to a contacts search unless the classifier takes a
    [find] branch; and it takes none for an utterance without [find],
    or with none of the four names in it. *)
Theorem find_known_name_searches_contacts :
  forall (env : Env) (st : Session) (now : Z) (command : string)
         (reply : QueryResult),
    let lowerCommand := toLowerCase command in
    let d := processVoiceCommand env st now command reply in
    (forall (b : Branch) (name : string),
        searchName b = Some name ->
        includes "find" lowerCommand = true ->
        includes (toLowerCase name) lowerCommand = true ->
        (forall b', (position b' < position b)%nat ->
                    guard b' lowerCommand = false) ->
        dispatched d = true ->
        exists responseText,
          outcome d
          = Spoke responseText
                  (Some ("/t/" ++ tenantId env ++ "/contacts?search=" ++ name)%string))
    /\ (searchName (classify lowerCommand) = None ->
        forall responseText name,
          outcome d
          <> Spoke responseText
                   (Some ("/t/" ++ tenantId env ++ "/contacts?search=" ++ name)%string))
    /\ (includes "find" lowerCommand = false
        \/ (includes "jonathan" lowerCommand = false
            /\ includes "takua" lowerCommand = false
            /\ includes "hong" lowerCommand = false
            /\ includes "datz" lowerCommand = false) ->
        searchName (classify lowerCommand) = None
        /\ forall responseText name,
            outcome d
            <> Spoke responseText
                     (Some ("/t/" ++ tenantId env ++ "/contacts?search=" ++ name)%string)).
Proof.
  intros env st now command reply lowerCommand d.
  assert (Hsearch :
            searchName (classify lowerCommand) = None ->
            forall responseText name,
              outcome d
              <> Spoke responseText
                       (Some ("/t/" ++ tenantId env ++ "/contacts?search=" ++ name)%string)).
  { intros Hnone responseText name Hout.
    change ("/t/" ++ tenantId env ++ "/contacts?search=" ++ name)%string
      with (page env ("/contacts?search=" ++ name)%string) in Hout.
    destruct (dispatched d) eqn:Hd.
    + subst d lowerCommand.
      rewrite (process_dispatched_outcome env st now command reply Hd) in Hout.
      destruct (classify (toLowerCase command));
        try discriminate; cbn -[page String.append] in Hout;
        repeat match type of Hout with
               | context [match ?x with _ => _ end] =>
                   destruct x; cbn -[page String.append] in Hout
               end;
        try discriminate;
        injection Hout as _ Hout; apply append_cancel in Hout; discriminate.
    + unfold dispatched in Hd. rewrite Hout in Hd. discriminate. }
  split; [|split].
  - intros b name Hname Hfind Hincl Hearlier Hd.
    assert (Hb : classify lowerCommand = b).
    { apply classify_complete; [|exact Hearlier].
      destruct b; try discriminate; injection Hname as <-;
        cbn [guard]; cbn in Hincl; now rewrite Hfind, Hincl. }
    subst d lowerCommand.
    rewrite (process_dispatched_outcome env st now command reply Hd), Hb.
    destruct b; try discriminate; injection Hname as <-; cbn; eauto.
  - exact Hsearch.
  - intros H. apply find_branch_needs_name in H. split; [exact H|].
    now apply Hsearch.
Qed.

Lemma find_known_name_searches_contacts_witness :
  (exists responseText,
      outcome (processVoiceCommand demoEnv connectedSession 1730000000000
                 "Find Jonathan" QueryThrows)
      = Spoke responseText (Some "/t/tokyo-voice-ai/contacts?search=Jonathan"))
  /\ searchName (classify (toLowerCase "Find Bob in Sales")) = None.
Proof.
  split.
  - apply (proj1 (find_known_name_searches_contacts
                    demoEnv connectedSession 1730000000000 "Find Jonathan"
                    QueryThrows)
                 FindJonathan "Jonathan").
    + reflexivity.
    + vm_compute. reflexivity.
    + vm_compute. reflexivity.
    + intros b' Hlt. destruct b'; simpl in Hlt; try lia; vm_compute; reflexivity.
    + vm_compute. reflexivity.
  - refine (proj1 (proj2 (proj2 (find_known_name_searches_contacts
                                   demoEnv connectedSession 1730000000000
                                   "Find Bob in Sales" QueryThrows)) _)).
    right. vm_compute. repeat split; reflexivity.
Defined.

(** C6 as stated fails for a name outside the four: [find bob] reaches
    the classifier, falls through to the default branch, and the
    assistant asks to repeat, without any navigation. *)
Lemma find_bob_is_unrecognized :
  classify (toLowerCase "find bob") = Unrecognized
  /\ outcome (processVoiceCommand demoEnv connectedSession 1730000000000
                "find bob" QueryThrows)
     = Spoke "I didn't quite catch that. Try saying 'sales pipeline', 'donations', 'contacts', 'find Jonathan', or ask a question starting with 'QUESTION'."
             None
  /\ ~ (forall (env : Env) (name : string),
           exists responseText,
             outcome (processVoiceCommand env connectedSession 1730000000000
                        ("find " ++ name) QueryThrows)
             = Spoke responseText
                     (Some ("/t/" ++ tenantId env ++ "/contacts?search=" ++ name)%string)).
Proof.
  split; [vm_compute; reflexivity|].
  split; [vm_compute; reflexivity|].
  intros H. destruct (H demoEnv "bob") as [responseText Hout].
  vm_compute in Hout. discriminate.
Qed.

(** ** Disconnecting *)

Section Disconnect.

Variable st : Session.

(** Whatever render registered the provider's handler, the call of
    [stopAmbientListening] it ends with gives what the model has. *)
Lemma onDisconnected_any_render (cl : Session) :
  let st1 :=
    setHasIntroduced false
      (setAvatarState Idle
         (setConnectionStatus Disconnected
            (setIsListening false (setIsConnected false st)))) in
  stopAmbientListening cl (fst (cleanupAudioMonitoring st1))
  = stopAmbientListening st (fst (cleanupAudioMonitoring st1)).
Proof.
  destruct st as [? ? ? ? ? ? ? proc ? ? ? ? ? ? ? ? ? rec actx ? frame].
  destruct cl as [? ? ? ? ? ? ? proc' ? ? ? ? ? ? ? ? ? ? ? ? ?].
  unfold stopAmbientListening, cleanupAudioMonitoring, idleIf.
  destruct proc, proc', rec, actx, frame; reflexivity.
Qed.

(** Both ways of disconnecting stop speech capture and the audio-level
    metering. *)
Lemma onDisconnected_stops_capture_and_metering :
  let st' := fst (onDisconnected st) in
  connectionStatus st' = Disconnected
  /\ recognitionRef st' = false /\ isListening st' = false
  /\ animationFrameRef st' = false /\ audioContextRef st' = false
  /\ analyserRef st' = false.
Proof.
  destruct st as
    [? ? ? ? ? ? ? proc ? ? ? ? ? ? ? ? ? rec actx ? frame].
  unfold onDisconnected, cleanupAudioMonitoring, stopAmbientListening, idleIf.
  destruct proc, rec, actx, frame; cbn; repeat split; reflexivity.
Qed.

Lemma disconnectFromRoom_stops_and_clears :
  let st' := fst (disconnectFromRoom st) in
  connectionStatus st' = Disconnected
  /\ recognitionRef st' = false /\ isListening st' = false
  /\ animationFrameRef st' = false /\ audioContextRef st' = false
  /\ analyserRef st' = false
  /\ isProcessing st' = false /\ isProcessingCommand st' = false.
Proof.
  destruct st as
    [? ? ? ? ? ? ? proc ? ? ? ? ? ? ? room ? rec actx ? frame].
  unfold disconnectFromRoom, cleanupAudioMonitoring, stopAmbientListening,
    idleIf.
  destruct proc, room, rec, actx, frame; cbn; repeat split; reflexivity.
Qed.

(** The handler of the provider's event leaves the processing flags
    as it finds them. *)
Lemma onDisconnected_keeps_processing_flags :
  let st' := fst (onDisconnected st) in
  isProcessing st' = isProcessing st
  /\ isProcessingCommand st' = isProcessingCommand st.
Proof.
  destruct st as
    [? ? ? ? ? ? ? proc ? ? ? ? ? ? ? ? ? rec actx ? frame].
  unfold onDisconnected, cleanupAudioMonitoring, stopAmbientListening, idleIf.
  destruct proc, rec, actx, frame; cbn; split; reflexivity.
Qed.

End Disconnect.

(** C5, on the code.  A session that loses the room while a command is
    being processed: the handler of the provider's [Disconnected] event
    stops capture and metering but leaves [isProcessing] and
    [isProcessingCommand] set, where the user's disconnect clears
    them. *)
Theorem provider_disconnect_keeps_processing_flags :
  let st := state (processVoiceCommand demoEnv connectedSession 1730000000000
                     "show me the sales pipeline" QueryThrows) in
  (isProcessing st = true /\ isProcessingCommand st = true)
  /\ (let st' := fst (onDisconnected st) in
      connectionStatus st' = Disconnected
      /\ recognitionRef st' = false /\ animationFrameRef st' = false
      /\ audioContextRef st' = false
      /\ isProcessing st' = true /\ isProcessingCommand st' = true)
  /\ (let st' := fst (disconnectFromRoom st) in
      connectionStatus st' = Disconnected
      /\ recognitionRef st' = false /\ animationFrameRef st' = false
      /\ audioContextRef st' = false
      /\ isProcessing st' = false /\ isProcessingCommand st' = false).
Proof. vm_compute. repeat split; reflexivity. Qed.

(** ** Falling back to the browser's synthesiser *)

Section Fallback.

Variables (env : Env) (cl st : Session) (text : string) (onEnd : OnEnd).

Lemma fallbackSpeak_calls (s : Session) :
  fallbackCalls (snd (fallbackSpeak env s text onEnd)) = 1%nat
  /\ (speechSynthesis env = true ->
      synthQueue (snd (fallbackSpeak env s text onEnd)) = [text]).
Proof.
  unfold fallbackSpeak. destruct (speechSynthesis env); cbn; split;
    solve [reflexivity|discriminate].
Qed.

(** A failure the code sees once - the request throws, the response
    is not a success, the play promise rejects, or the audio element
    reports an error - enters the fallback once and leaves one
    utterance in the queue. *)
Lemma single_failure_falls_back_once (outcome : HostedOutcome) :
  outcome = TtsFetchThrows \/ (exists status, outcome = TtsNotOk status)
  \/ outcome = TtsAudio [PlayRejected] \/ outcome = TtsAudio [ErrorEvent] ->
  let fx := snd (speakWithOpenAI env cl st text onEnd outcome) in
  fallbackCalls fx = 1%nat
  /\ (speechSynthesis env = true -> synthQueue fx = [text]).
Proof.
  intros [ -> | [ [status -> ] | [ -> | -> ] ] ]; cbn -[fallbackSpeak fallbackCalls synthQueue];
    try apply fallbackSpeak_calls.
  - destruct (fallbackSpeak _ _ _ _) eqn:E. cbn [snd app].
    pose proof (fallbackSpeak_calls
                  (setStopSpeakingRef
                     (Some {| stopIdle := mayIdle cl; stopOnEnd := onEnd |})
                     (setAvatarState Speaking (setIsSpeaking true st)))) as H.
    now rewrite E in H.
  - destruct (fallbackSpeak _ _ _ _) eqn:E. cbn [snd app].
    match type of E with
    | fallbackSpeak _ ?s0 _ _ = _ => pose proof (fallbackSpeak_calls s0) as H
    end.
    now rewrite E in H.
Qed.

End Fallback.

(** C8, on the code.  When the audio of a successful hosted response
    cannot be played, the browser both fires the [error] event of the
    audio element and rejects the promise of [play()].  Each of the two
    handlers calls the fallback: for the text [Hello] it is entered
    twice.  The second call cancels the utterance of the first, so one
    utterance is left in the queue. *)
Theorem playback_failure_falls_back_twice :
  let fx := snd (speakWithOpenAI demoEnv connectedSession connectedSession
                   "Hello" NoCallback (TtsAudio [ErrorEvent; PlayRejected])) in
  fx = [FallbackLog; SynthCancel; SynthSpeak "Hello" NoCallback;
        FallbackLog; SynthCancel; SynthSpeak "Hello" NoCallback]
  /\ fallbackCalls fx = 2%nat
  /\ synthQueue fx = ["Hello"].
Proof. vm_compute. repeat split; reflexivity. Qed.

(** * Further properties of the code *)

(** ** The routes *)

Section Routes.

Lemma append_assoc3 (a b c : string) :
  ((a ++ b) ++ c)%string = (a ++ b ++ c)%string.
Proof. induction a as [|x a IH]; simpl; [reflexivity|now rewrite IH]. Qed.

(** A string that includes [p ++ m] includes [m]. *)
Lemma includes_suffix (p m s : string) :
  includes (p ++ m) s = true -> includes m s = true.
Proof.
  rewrite !includes_spec. intros [before [after ->]].
  exists (before ++ p)%string, after.
  now rewrite !append_assoc3.
Qed.

Lemma find_extensional {A} (f g : A -> bool) (l : list A) :
  (forall a, f a = g a) -> find f l = find g l.
Proof.
  intros H. induction l as [|a l IH]; simpl; [reflexivity|].
  now rewrite H, IH.
Qed.

Lemma mood_answers_nonempty (answer : string) :
  In answer (map snd Mood.moodKeywords) -> answer <> EmptyString.
Proof.
  simpl. intros H.
  repeat (destruct H as [<-|H]; [discriminate|]). contradiction.
Qed.

Lemma detectedMood_in_table (query mood answer : string) :
  Mood.detectedMood query = Some (mood, answer) ->
  In answer (map snd Mood.moodKeywords).
Proof.
  unfold Mood.detectedMood. intros H. apply find_some in H.
  destruct H as [H _]. now apply (in_map snd) in H.
Qed.

End Routes.

(** X1.  The phrase tests of the mood table add nothing: a mood is detected
    exactly when its bare keyword occurs in the lower-case query, and
    the first keyword of the table that occurs decides the answer. *)
Theorem detectedMood_keyword_only :
  forall query : string,
    Mood.detectedMood query
    = find (fun '(mood, _) => includes mood (toLowerCase query))
           Mood.moodKeywords.
Proof.
  intros query. unfold Mood.detectedMood. apply find_extensional.
  intros [mood answer].
  destruct (includes mood (toLowerCase query)) eqn:E; [reflexivity|].
  cbn [orb].
  repeat match goal with
         | |- context [includes (?p ++ mood)%string ?s] =>
             let E' := fresh in
             destruct (includes (p ++ mood)%string s) eqn:E';
             [apply includes_suffix in E'; congruence|]
         end.
  reflexivity.
Qed.

(** X2.  A query that is not sensitive and contains a keyword of the mood
    table is answered with a canned text of the table, without a call
    of the upstream API. *)
Theorem mood_keyword_answers_locally :
  forall (query mood : string) (upstream : Mood.Upstream),
    In mood (map fst Mood.moodKeywords) ->
    includes mood (toLowerCase query) = true ->
    Mood.isSensitive query = false ->
    exists answer,
      In answer (map snd Mood.moodKeywords)
      /\ Mood.POST (Mood.Body (Some query)) upstream
         = (Mood.ok answer query, []).
Proof.
  intros query mood upstream Hin Hinc Hs.
  assert (Hq : query <> EmptyString).
  { intros ->. cbn [toLowerCase] in Hinc.
    rewrite includes_empty in Hinc; [discriminate|].
    intros ->. simpl in Hin. intuition discriminate. }
  destruct (Mood.detectedMood query) as [[m answer]|] eqn:Hd.
  - exists answer. split; [eapply detectedMood_in_table; eassumption|].
    destruct query; [congruence|]. unfold Mood.POST. now rewrite Hs, Hd.
  - exfalso. unfold Mood.detectedMood in Hd.
    apply in_map_iff in Hin. destruct Hin as [[m a] [Hm Hin]]. simpl in Hm.
    subst m. apply (find_none _ _ Hd) in Hin. cbv beta iota in Hin.
    rewrite Hinc in Hin. discriminate.
Qed.

Lemma mood_keyword_answers_locally_witness :
  exists answer,
    In answer (map snd Mood.moodKeywords)
    /\ Mood.POST (Mood.Body (Some "I feel so STRESSED today")) Mood.FetchThrows
       = (Mood.ok answer "I feel so STRESSED today", []).
Proof.
  apply (mood_keyword_answers_locally "I feel so STRESSED today" "stressed").
  - simpl. tauto.
  - vm_compute. reflexivity.
  - vm_compute. reflexivity.
Defined.

(** X3.  The mood route answers in one of three shapes: 200 with a
    non-empty answer and the query as it came; 400 for a missing or
    empty query, before any upstream call; 500 for unreadable JSON or
    an upstream failure.  It calls the upstream API at most once, with
    the query as it came. *)
Theorem mood_response_shape :
  forall (request : Mood.Request) (upstream : Mood.Upstream),
    let r := fst (Mood.POST request upstream) in
    let calls := snd (Mood.POST request upstream) in
    ((exists answer query,
         request = Mood.Body (Some query) /\ query <> EmptyString
         /\ answer <> EmptyString /\ r = Mood.ok answer query)
     \/ (r = {| Mood.status := 400; Mood.body := Mood.Error "Query is required" |}
         /\ calls = []
         /\ (request = Mood.Body None \/ request = Mood.Body (Some EmptyString)))
     \/ r = Mood.failure)
    /\ (calls = []
        \/ exists query,
            request = Mood.Body (Some query)
            /\ calls = [Mood.ChatCompletion query]).
Proof.
  intros request upstream.
  destruct request as [|[[|c q]|]]; cbn -[Mood.isSensitive Mood.detectedMood].
  - split; [right; right; reflexivity|left; reflexivity].
  - split; [right; left; auto|left; reflexivity].
  - set (query := String c q).
    destruct (Mood.isSensitive query).
    + split; [left|left; reflexivity].
      exists Mood.safetyResponse, query. repeat split; discriminate.
    + destruct (Mood.detectedMood query) as [[m answer]|] eqn:Hd.
      * split; [left|left; reflexivity].
        exists answer, query. repeat split; try discriminate.
        apply mood_answers_nonempty. eapply detectedMood_in_table. eassumption.
      * split; [|right; exists query; destruct upstream as [| | |[[|? ?]|]]; auto].
        destruct upstream as [| | |[[|x content]|]]; cbn;
          try (right; right; reflexivity); left.
        -- exists Mood.defaultAnswer, query. repeat split; discriminate.
        -- exists (String x content), query. repeat split; discriminate.
        -- exists Mood.defaultAnswer, query. repeat split; discriminate.
  - split; [right; left; auto|left; reflexivity].
Qed.

(** X4.  Both chat proxies - donation advice and general question - answer
    a non-empty query with 200 and a non-empty answer beside the query
    as it came, or with 500 and their fixed error when the upstream
    call fails; they ask the upstream API exactly once, passing the
    query unchanged with the route's own system prompt and token
    budget.  A missing or empty query gets 400 and no upstream call. *)
Theorem chat_proxy_shape :
  forall (route : Chat.Route) (request : Mood.Request)
         (upstream : Mood.Upstream),
    In route [Chat.donationAdvice; Chat.generalQuestion] ->
    let r := fst (Chat.POST route request upstream) in
    let calls := snd (Chat.POST route request upstream) in
    match request with
    | Mood.InvalidJson =>
        r = {| Mood.status := 500;
               Mood.body := Mood.Error (Chat.failureError route) |}
        /\ calls = []
    | Mood.Body None | Mood.Body (Some EmptyString) =>
        r = {| Mood.status := 400; Mood.body := Mood.Error "Query is required" |}
        /\ calls = []
    | Mood.Body (Some query) =>
        calls = [{| Chat.model := "gpt-4";
                    Chat.systemPrompt := Chat.prompt route;
                    Chat.userContent := query;
                    Chat.maxTokens := Chat.tokens route;
                    Chat.temperature := 7 # 10 |}]
        /\ ((exists answer,
                answer <> EmptyString /\ r = Mood.ok answer query
                /\ exists content, upstream = Mood.Completion content)
            \/ (r = {| Mood.status := 500;
                       Mood.body := Mood.Error (Chat.failureError route) |}
                /\ forall content, upstream <> Mood.Completion content))
    end.
Proof.
  intros route request upstream Hroute.
  assert (Hfb : Chat.fallbackAnswer route <> EmptyString).
  { destruct Hroute as [<-|[<-|[]]]; discriminate. }
  destruct request as [|[[|c q]|]]; cbn; auto.
  split; [destruct upstream as [| | |[[|? ?]|]]; reflexivity|].
  destruct upstream as [| | |[[|x content]|]]; cbn;
    try (right; split; [reflexivity|discriminate]); left.
  - exists (Chat.fallbackAnswer route). eauto.
  - exists (String x content). split; [discriminate|eauto].
  - exists (Chat.fallbackAnswer route). eauto.
Qed.

Lemma chat_proxy_shape_witness :
  snd (Chat.POST Chat.donationAdvice
                 (Mood.Body (Some "How do I get donations up?"))
                 Mood.FetchThrows)
  = [{| Chat.model := "gpt-4";
        Chat.systemPrompt := Chat.prompt Chat.donationAdvice;
        Chat.userContent := "How do I get donations up?";
        Chat.maxTokens := 200;
        Chat.temperature := 7 # 10 |}].
Proof.
  apply (chat_proxy_shape Chat.donationAdvice
           (Mood.Body (Some "How do I get donations up?")) Mood.FetchThrows).
  simpl. left. reflexivity.
Defined.

(** X5.  The speech proxy returns audio exactly when the text is non-empty,
    the API key is configured and the upstream call yields audio; the
    body is then the upstream bytes.  With the key missing, empty or
    left at its placeholder it never calls the upstream API and never
    answers with a success status; with the key configured it behaves
    as the version of the route that has no check of the key. *)
Theorem tts_route_success_iff :
  forall (apiKey : option string) (request : Tts.Request)
         (upstream : Tts.Upstream),
    let r := fst (Tts.POST apiKey request upstream) in
    let calls := snd (Tts.POST apiKey request upstream) in
    (Wiring.ok (Tts.status r) = true <->
     exists text voice model bytes,
       request = Tts.Body (Some text) voice model /\ text <> EmptyString
       /\ Tts.keyMissing apiKey = false /\ upstream = Tts.Audio bytes
       /\ exists len, r = Tts.AudioResponse bytes "audio/mpeg" len)
    /\ (Tts.keyMissing apiKey = true -> calls = [])
    /\ (Tts.keyMissing apiKey = false ->
        Tts.POST apiKey request upstream = Tts.POST_unchecked request upstream).
Proof.
  intros apiKey request upstream. split; [|split].
  - destruct request as [|[[|c t]|] voice model]; cbn.
    + split; [discriminate|]. intros (? & ? & ? & ? & H & _). discriminate.
    + split; [discriminate|].
      intros (? & ? & ? & ? & H & Hne & _). injection H as <- _ _. congruence.
    + destruct (Tts.keyMissing apiKey) eqn:Hk; cbn.
      * split; [discriminate|]. intros (? & ? & ? & ? & _ & _ & H & _). discriminate.
      * destruct upstream as [| |bytes]; cbn.
        -- split; [discriminate|]. intros (? & ? & ? & ? & _ & _ & _ & H & _). discriminate.
        -- split; [discriminate|]. intros (? & ? & ? & ? & _ & _ & _ & H & _). discriminate.
        -- split; [intros _|reflexivity].
           exists (String c t), voice, model, bytes.
           repeat split; try discriminate. eauto.
    + split; [discriminate|]. intros (? & ? & ? & ? & H & _). discriminate.
  - intros Hk. destruct request as [|[[|c t]|] voice model]; cbn; try reflexivity.
    now rewrite Hk.
  - intros Hk. destruct request as [|[[|c t]|] voice model]; cbn; try reflexivity.
    now rewrite Hk.
Qed.

Lemma tts_route_success_iff_witness :
  snd (Tts.POST (Some "your_openai_api_key_here") (Wiring.ttsRequest "Hello")
                (Tts.Audio []))
  = [].
Proof.
  apply (proj1 (proj2 (tts_route_success_iff
                         (Some "your_openai_api_key_here")
                         (Wiring.ttsRequest "Hello") (Tts.Audio [])))).
  reflexivity.
Defined.

(** ** The donations page *)

Section DonationFacts.

Import Donations.

Let pick (max d : Donation) : Donation :=
  if (amount max <? amount d) then d else max.

Lemma fold_biggest (l : list Donation) (acc : Donation) :
  let r := fold_left pick l acc in
  (amount acc <= amount r)
  /\ (forall e, In e l -> (amount e <= amount r))
  /\ ((r = acc /\ forall e, In e l -> (amount e <= amount acc))
      \/ exists l1 l2,
          l = (l1 ++ r :: l2)%list /\ (amount acc < amount r)
          /\ forall e, In e l1 -> (amount e < amount r)).
Proof.
  revert acc. induction l as [|d l IH]; intros acc; cbn [fold_left].
  - split; [lia|]. split; [intros e []|]. left. split; [reflexivity|intros e []].
  - destruct (amount acc <? amount d) eqn:E.
    + assert (Hp : pick acc d = d) by (unfold pick; now rewrite E).
      rewrite Hp.
      apply Z.ltb_lt in E. destruct (IH d) as (H1 & H2 & H3).
      split; [lia|]. split.
      * intros e [<-|He]; [exact H1|now apply H2].
      * right. destruct H3 as [[Hr _]|(l1 & l2 & Hl & Hlt & Hl1)].
        -- exists [], l. rewrite Hr. split; [reflexivity|]. split; [exact E|intros e []].
        -- exists (d :: l1), l2. split; [now rewrite Hl at 1|]. split; [lia|].
           intros e [<-|He]; [exact Hlt|now apply Hl1].
    + assert (Hp : pick acc d = acc) by (unfold pick; now rewrite E).
      rewrite Hp.
      apply Z.ltb_ge in E. destruct (IH acc) as (H1 & H2 & H3).
      split; [exact H1|]. split.
      * intros e [<-|He]; [lia|now apply H2].
      * destruct H3 as [[Hr Hall]|(l1 & l2 & Hl & Hlt & Hl1)].
        -- left. split; [exact Hr|]. intros e [<-|He]; [exact E|now apply Hall].
        -- right. exists (d :: l1), l2. split; [now rewrite Hl at 1|].
           split; [exact Hlt|]. intros e [<-|He]; [lia|now apply Hl1].
Qed.

Lemma sumAmounts_from (l : list Donation) (a : Z) :
  fold_left (fun sum d => (sum + amount d)) l a = (a + sumAmounts l).
Proof.
  unfold sumAmounts. revert a. induction l as [|d l IH]; intros a; simpl.
  - lia.
  - rewrite (IH (a + amount d)), (IH (amount d)). lia.
Qed.

Lemma sumAmounts_cons (d : Donation) (l : list Donation) :
  sumAmounts (d :: l) = (amount d + sumAmounts l).
Proof. unfold sumAmounts at 1. simpl. apply sumAmounts_from. Qed.

Lemma sumAmounts_nonneg (l : list Donation) :
  (forall d, In d l -> 0 <= amount d) -> 0 <= sumAmounts l.
Proof.
  induction l as [|d l IH]; intros H; [unfold sumAmounts; simpl; lia|].
  rewrite sumAmounts_cons.
  specialize (H d (or_introl eq_refl)) as Hd.
  assert (0 <= sumAmounts l) by (apply IH; intros e He; apply H; now right).
  lia.
Qed.

Lemma sumAmounts_filter (p : Donation -> bool) (l : list Donation) :
  (forall d, In d l -> 0 <= amount d) ->
  sumAmounts (filter p l) <= sumAmounts l.
Proof.
  induction l as [|d l IH]; intros H; simpl; [lia|].
  specialize (H d (or_introl eq_refl)) as Hd.
  assert (sumAmounts (filter p l) <= sumAmounts l)
    by (apply IH; intros e He; apply H; now right).
  destruct (p d); rewrite ?sumAmounts_cons; lia.
Qed.

Lemma sumAmounts_filter_all (p : Donation -> bool) (l : list Donation) :
  (forall d, In d l -> p d = true) -> filter p l = l.
Proof.
  induction l as [|d l IH]; simpl; [reflexivity|]. intros H.
  rewrite (H d (or_introl eq_refl)), IH; [reflexivity|]. intros e He. apply H. now right.
Qed.

Lemma sumAmounts_member (d : Donation) (l : list Donation) :
  (forall e, In e l -> 0 <= amount e) ->
  In d l -> amount d <= sumAmounts l.
Proof.
  induction l as [|e l IH]; intros Hpos; [intros []|].
  rewrite sumAmounts_cons.
  assert (Hl : forall x, In x l -> 0 <= amount x)
    by (intros x Hx; apply Hpos; now right).
  pose proof (sumAmounts_nonneg l Hl).
  pose proof (Hpos e (or_introl eq_refl)).
  intros [->|H']; [lia|]. specialize (IH Hl H'). lia.
Qed.

Lemma filter_shorter {A} (p : A -> bool) (l : list A) :
  (List.length (filter p l) <= List.length l)%nat.
Proof.
  induction l as [|a l IH]; simpl; [lia|]. destruct (p a); simpl; lia.
Qed.

Lemma nodup_shorter (l : list string) :
  (List.length (nodup string_dec l) <= List.length l)%nat.
Proof.
  induction l as [|a l IH]; simpl; [lia|].
  destruct (in_dec string_dec a l); simpl; lia.
Qed.

Lemma biggestDonation_member (l : list Donation) (d : Donation) :
  biggestDonation l = Some d -> In d l.
Proof.
  destruct l as [|first rest]; [discriminate|].
  unfold biggestDonation. intros H.
  assert (Hd : fold_left pick (first :: rest) first = d)
    by (unfold pick; congruence).
  pose proof (fold_biggest (first :: rest) first) as (_ & _ & H3).
  cbv zeta in H3. rewrite Hd in H3.
  destruct H3 as [[-> _]|(l1 & l2 & -> & _)]; [now left|].
  apply in_or_app. right. now left.
Qed.

End DonationFacts.

(** X6.  The highlighted donation of a non-empty list is the first one of
    the largest amount: every donation before it in the list is
    strictly smaller, none is larger.  Only the empty list has none. *)
Theorem biggestDonation_first_maximum :
  forall (donations : list Donations.Donation) (d : Donations.Donation),
    Donations.biggestDonation donations = Some d ->
    (exists before after,
        donations = (before ++ d :: after)%list
        /\ forall e, In e before ->
                     (Donations.amount e < Donations.amount d))
    /\ (forall e, In e donations ->
                  (Donations.amount e <= Donations.amount d))
    /\ (Donations.biggestDonation [] = None).
Proof.
  intros donations d H. destruct donations as [|first rest]; [discriminate|].
  unfold Donations.biggestDonation in H.
  pose proof (fold_biggest (first :: rest) first) as HH. cbv zeta in HH.
  assert (Hd : fold_left
                 (fun max e =>
                    if (Donations.amount max <? Donations.amount e)
                    then e else max)
                 (first :: rest) first = d) by congruence.
  rewrite Hd in HH. destruct HH as (H1 & H2 & H3).
  split; [|split; [exact H2|reflexivity]].
  destruct H3 as [[-> _]|(l1 & l2 & Hl & _ & Hl1)].
  - exists [], rest. split; [reflexivity|intros e []].
  - exists l1, l2. split; assumption.
Qed.

Lemma biggestDonation_first_maximum_witness :
  let top :=
    {| Donations.id := "4"; Donations.amount := 1000;
       Donations.date := "2024-01-12"; Donations.contact := "Alice Brown";
       Donations.status := "sent" |} in
  exists before after,
    Donations.mockDonations "makelit" = (before ++ top :: after)%list
    /\ forall e, In e before ->
                 (Donations.amount e < Donations.amount top).
Proof.
  intros top.
  apply (proj1 (biggestDonation_first_maximum
                  (Donations.mockDonations "makelit") top eq_refl)).
Defined.

(** X7.  The figures of the page are consistent for every list of
    donations whose amounts are not negative: the year-to-date sum
    never exceeds the all-time sum and equals it when every date is of
    2024; the highlighted donation is at most the all-time sum; the
    donors and the pending thank-yous are at most as many as the
    donations. *)
Theorem donation_figures_consistent :
  forall donations : list Donations.Donation,
    (forall d, In d donations -> 0 <= Donations.amount d) ->
    (Donations.ytdDonations donations <= Donations.totalDonations donations)
    /\ ((forall d, In d donations ->
                   startsWith "2024" (Donations.date d) = true) ->
        Donations.ytdDonations donations = Donations.totalDonations donations)
    /\ (forall d, Donations.biggestDonation donations = Some d ->
                  (Donations.amount d <= Donations.totalDonations donations))
    /\ (Donations.totalDonors donations <= List.length donations)%nat
    /\ (Donations.pendingThankYous donations <= List.length donations)%nat.
Proof.
  intros donations Hpos.
  unfold Donations.ytdDonations, Donations.totalDonations.
  split; [now apply sumAmounts_filter|].
  split; [intros H; now rewrite sumAmounts_filter_all|].
  split.
  - intros d H. apply sumAmounts_member; [exact Hpos|].
    now apply biggestDonation_member.
  - split.
    + unfold Donations.totalDonors.
      rewrite <- (length_map Donations.contact donations). apply nodup_shorter.
    + apply filter_shorter.
Qed.

Lemma donation_figures_consistent_witness :
  Donations.ytdDonations (Donations.mockDonations "tokyo-voice-ai")
  = Donations.totalDonations (Donations.mockDonations "tokyo-voice-ai").
Proof.
  refine (proj1 (proj2 (donation_figures_consistent
                          (Donations.mockDonations "tokyo-voice-ai") _)) _).
  - intros d Hd. simpl in Hd.
    repeat (destruct Hd as [<-|Hd]; [cbn; lia|]). contradiction.
  - intros d Hd. simpl in Hd.
    repeat (destruct Hd as [<-|Hd]; [reflexivity|]). contradiction.
Defined.

(** The condition on the amounts is needed: with a refund entered
    before 2024, the year-to-date sum is larger than the all-time
    sum. *)
Example refund_breaks_year_to_date_bound :
  let donations :=
    [{| Donations.id := "1"; Donations.amount := -50;
        Donations.date := "2023-12-30"; Donations.contact := "John Smith";
        Donations.status := "none" |};
     {| Donations.id := "2"; Donations.amount := 250;
        Donations.date := "2024-01-15"; Donations.contact := "John Smith";
        Donations.status := "sent" |}] in
  Donations.totalDonations donations = 200
  /\ Donations.ytdDonations donations = 250.
Proof. vm_compute. split; reflexivity. Qed.

(** ** The workspaces page *)

(** X8.  Whatever the list of demo tenants, a workspace is offered only if
    the user's tenant list names its slug, bare or behind [demo-]; it
    is one of the demo tenants, keeps its name and palette, has its
    slug for identifier, and opens [/t/<slug>].  No more workspaces are
    offered than there are demo tenants. *)
Theorem workspaces_only_permitted :
  forall (demoTenants : list Workspaces.DemoTenant) (userData : Workspaces.User)
         (t : Workspaces.Tenant),
    In t (Workspaces.filteredTenants demoTenants userData) ->
    let ids := map fst (Workspaces.tenants userData) in
    (In (Workspaces.slug t) ids \/ In ("demo-" ++ Workspaces.slug t)%string ids)
    /\ Workspaces.tenantId t = Workspaces.slug t
    /\ Workspaces.handleTenantSelect t = ("/t/" ++ Workspaces.slug t)%string
    /\ (exists d,
           In d demoTenants
           /\ Workspaces.demoSlug d = Workspaces.slug t
           /\ Workspaces.demoName d = Workspaces.tenantName t
           /\ Workspaces.palette d = Workspaces.brandingPalette t)
    /\ (List.length (Workspaces.filteredTenants demoTenants userData)
        <= List.length demoTenants)%nat.
Proof.
  intros demoTenants userData t Hin ids.
  unfold Workspaces.filteredTenants in *. fold ids in Hin |- *.
  apply in_map_iff in Hin. destruct Hin as [d [<- Hd]].
  apply filter_In in Hd. destruct Hd as [Hd Hp]. cbn.
  split.
  - unfold Workspaces.permitted in Hp. apply orb_true_iff in Hp.
    destruct Hp as [Hp|Hp]; apply arrayIncludes_In in Hp; auto.
  - split; [reflexivity|]. split; [reflexivity|]. split.
    + exists d. auto.
    + rewrite length_map. apply filter_shorter.
Qed.

Lemma workspaces_only_permitted_witness :
  Workspaces.tenantId
    {| Workspaces.tenantId := "makelit"; Workspaces.tenantName := "MAKE";
       Workspaces.slug := "makelit"; Workspaces.brandingPalette := [];
       Workspaces.brandingLogoUrl := None |}
  = "makelit".
Proof.
  apply (workspaces_only_permitted
           [{| Workspaces.demoName := "MAKE"; Workspaces.demoSlug := "makelit";
               Workspaces.palette := []; Workspaces.logoUrl := None |};
            {| Workspaces.demoName := "1in6"; Workspaces.demoSlug := "oneinsix";
               Workspaces.palette := []; Workspaces.logoUrl := None |}]
           (Workspaces.simulateUserLogin None None)).
  vm_compute. left. reflexivity.
Defined.

(** X9.  Every login but the superuser's carries exactly one tenant, behind
    [demo-], with the role of an owner or an admin, and does not look
    at the [email] parameter; a [user] parameter that is absent, empty
    or not one of the five known names logs in as the owner of
    [demo-makelit]. *)
Theorem demo_login_single_tenant :
  forall userParam emailParam : option string,
    let demoUser := Workspaces.paramOr userParam "makelit" in
    let u := Workspaces.simulateUserLogin userParam emailParam in
    (demoUser <> "superuser" ->
     u = Workspaces.simulateUserLogin userParam None
     /\ exists name role,
         Workspaces.tenants u = [(("demo-" ++ name)%string, role)]
         /\ (role = Workspaces.Owner \/ role = Workspaces.Admin))
    /\ (~ In demoUser ["1in6"; "fallenfruit"; "homeboy"; "superuser"] ->
        u = Workspaces.makelit).
Proof.
  intros userParam emailParam demoUser u. subst u.
  unfold Workspaces.simulateUserLogin. fold demoUser.
  destruct (String.eqb demoUser "makelit") eqn:E1.
  { split; [intros _; split; [reflexivity|exists "makelit", Workspaces.Owner; auto]|reflexivity]. }
  destruct (String.eqb demoUser "1in6") eqn:E2.
  { apply String.eqb_eq in E2.
    split; [intros _; split; [reflexivity|exists "oneinsix", Workspaces.Admin; auto]|].
    intros H. exfalso. apply H. rewrite E2. simpl. tauto. }
  destruct (String.eqb demoUser "fallenfruit") eqn:E3.
  { apply String.eqb_eq in E3.
    split; [intros _; split; [reflexivity|exists "fallenfruit", Workspaces.Owner; auto]|].
    intros H. exfalso. apply H. rewrite E3. simpl. tauto. }
  destruct (String.eqb demoUser "homeboy") eqn:E4.
  { apply String.eqb_eq in E4.
    split; [intros _; split; [reflexivity|exists "homeboy", Workspaces.Admin; auto]|].
    intros H. exfalso. apply H. rewrite E4. simpl. tauto. }
  destruct (String.eqb demoUser "superuser") eqn:E5.
  { apply String.eqb_eq in E5. split; [congruence|].
    intros H. exfalso. apply H. rewrite E5. simpl. tauto. }
  split; [intros _; split; [reflexivity|exists "makelit", Workspaces.Owner; auto]|reflexivity].
Qed.

Lemma demo_login_single_tenant_witness :
  Workspaces.simulateUserLogin (Some "nobody") (Some "jon@vcrm.com")
  = Workspaces.makelit.
Proof.
  apply (proj2 (demo_login_single_tenant (Some "nobody") (Some "jon@vcrm.com"))).
  simpl. intuition discriminate.
Defined.

(** ** The dispatcher at work *)

Section Dispatch.

Variables (env : Env) (st : Session) (now : Z) (command : string)
          (reply : QueryResult).

Let d := processVoiceCommand env st now command reply.
Let normalizedCommand := trim (toLowerCase command).
Let b := classify (toLowerCase command).

(** The guards, read back from a call that was dispatched. *)
Lemma dispatched_guards :
  dispatched d = true <->
  busy st = false
  /\ String.eqb (lastProcessedCommand st) normalizedCommand = false
  /\ (List.length (split " " normalizedCommand) <? 2)%nat
     && negb (includes "help" normalizedCommand)
     && negb (includes "stop" normalizedCommand) = false
  /\ (now - match lastProcessedTimestamp st with Some t => t | None => 0 end
      <? 3000) = false.
Proof.
  subst d normalizedCommand. split.
  - intros H.
    destruct (process_ignored_or_stamped env st now command reply)
      as [[why Hi]|_]; [rewrite Hi in H; discriminate|].
    unfold processVoiceCommand in H.
    destruct (busy st); [discriminate|].
    destruct (String.eqb _ _); [discriminate|].
    destruct (_ && _ && _); [discriminate|].
    destruct (_ <? _); [discriminate|]. auto.
  - intros (H1 & H2 & H3 & H4).
    destruct (process_ignored_or_stamped env st now command reply)
      as [[why Hi]|[Hd _]]; [|exact Hd].
    exfalso. apply (f_equal outcome) in Hi. revert Hi.
    unfold processVoiceCommand. rewrite H1, H2, H3, H4. clear.
    destruct st as [? lis ? ? ? ? ? proc ? ? pcmd ? ? ? stopRef ? ? ? ? ? ?].
    destruct (classify (toLowerCase command)); cbn -[localResponse];
      try (destruct (localResponse _ _ _); cbn); try discriminate.
    unfold stopSpeaking, speakOnEnd, idleIf, mayIdle.
    destruct stopRef as [[[|] [| |? [?|]]]|], lis, proc, pcmd; cbn; discriminate.
Qed.

(** What a dispatched call asks of the network: one hosted synthesis
    of the text it speaks, and one query of a proxy in the three
    remote branches. *)
Lemma dispatch_requests :
  dispatched d = true ->
  hostedRequests (effects d)
  = match outcome d with
    | Spoke responseText navigateTo =>
        [(responseText,
          match remoteQuery b with
          | Some _ => QueryDone command
          | None => CommandDone command navigateTo
          end)]
    | _ => []
    end
  /\ proxyQueries (effects d)
     = match remoteQuery b with
       | Some (url, _, _) => [(url, command)]
       | None => []
       end
  /\ (outcome d = Stopped
      \/ (isProcessing (state d) = true
          /\ isProcessingCommand (state d) = true)).
Proof.
  subst d b. unfold processVoiceCommand.
  destruct (busy st); [discriminate|].
  destruct (String.eqb _ _); [discriminate|].
  destruct (_ && _ && _); [discriminate|].
  destruct (_ <? _); [discriminate|]. intros _.
  destruct st as [? lis ? ? ? ? ? proc ? ? pcmd ? ? ? stopRef ? ? rec ? ? ?].
  destruct (classify (toLowerCase command)); cbn -[localResponse];
    try (destruct (localResponse _ _ _); cbn);
    try (destruct (onTranscript env), rec; cbn; auto; fail).
  unfold stopSpeaking, speakOnEnd, idleIf, mayIdle, when.
  destruct stopRef as [[[|] [| |? [?|]]]|], lis, proc, pcmd,
           (onTranscript env), (onCommand env), (speechSynthesis env);
    cbn; auto.
Qed.

End Dispatch.

(** X10.  A dispatched command that is not a stop command starts exactly one
    hosted synthesis, of the text it answers with, and sets both
    processing flags; it queries a proxy at most once, only in a
    remote-query branch, with the command as it was heard, and then it
    does not navigate.  A stop command starts no synthesis and queries
    nothing. *)
Theorem dispatch_speaks_exactly_once :
  forall (env : Env) (st : Session) (now : Z) (command : string)
         (reply : QueryResult),
    let d := processVoiceCommand env st now command reply in
    dispatched d = true ->
    match outcome d with
    | Ignored _ => False
    | Stopped =>
        hostedRequests (effects d) = [] /\ proxyQueries (effects d) = []
    | Spoke responseText navigateTo =>
        (exists k,
            hostedRequests (effects d) = [(responseText, k)]
            /\ (k = CommandDone command navigateTo
                \/ (k = QueryDone command /\ navigateTo = None)))
        /\ (proxyQueries (effects d) = []
            \/ (navigateTo = None
                /\ exists url,
                    proxyQueries (effects d) = [(url, command)]
                    /\ In url ["/api/openai/weather";
                               "/api/openai/donation-advice";
                               "/api/openai/general-question"]))
        /\ isProcessing (state d) = true
        /\ isProcessingCommand (state d) = true
    end.
Proof.
  intros env st now command reply d Hd.
  destruct (dispatch_requests env st now command reply Hd) as (Hh & Hq & Hf).
  pose proof (process_dispatched_outcome env st now command reply Hd) as Ho.
  fold d in Hh, Hq, Hf, Ho. rewrite Hq. rewrite Ho in Hh, Hf |- *. rewrite Hh.
  clear Hh Hq Ho.
  destruct (classify (toLowerCase command)); cbn -[localResponse] in Hf |- *;
    try (split; reflexivity);
    (destruct Hf as [Hf|[Hf1 Hf2]]; [discriminate|]);
    (split; [eexists; split; [reflexivity|auto]|]);
    (split; [|split; assumption]);
    try (left; reflexivity);
    right; (split; [reflexivity|]); eexists; (split; [reflexivity|]);
    simpl; tauto.
Qed.

Lemma dispatch_speaks_exactly_once_witness :
  let d := processVoiceCommand demoEnv connectedSession 1730000000000
             "how to get donations from sponsors" (QueryOk "Ask them.") in
  match outcome d with
  | Ignored _ => False
  | Stopped => hostedRequests (effects d) = [] /\ proxyQueries (effects d) = []
  | Spoke responseText navigateTo =>
      (exists k,
          hostedRequests (effects d) = [(responseText, k)]
          /\ (k = CommandDone "how to get donations from sponsors" navigateTo
              \/ (k = QueryDone "how to get donations from sponsors"
                  /\ navigateTo = None)))
      /\ (proxyQueries (effects d) = []
          \/ (navigateTo = None
              /\ exists url,
                  proxyQueries (effects d)
                  = [(url, "how to get donations from sponsors")]
                  /\ In url ["/api/openai/weather";
                             "/api/openai/donation-advice";
                             "/api/openai/general-question"]))
      /\ isProcessing (state d) = true
      /\ isProcessingCommand (state d) = true
  end.
Proof.
  apply (dispatch_speaks_exactly_once
           demoEnv connectedSession 1730000000000
           "how to get donations from sponsors" (QueryOk "Ask them.")).
  vm_compute. reflexivity.
Defined.

(** X11.  A dispatched stop command leaves the session idle: nothing is
    speaking or being processed, the avatar is idle, the stop function
    is dropped and the queue of the browser's synthesiser is cancelled
    where there is one. *)
Theorem stop_command_leaves_session_idle :
  forall (env : Env) (st : Session) (now : Z) (command : string)
         (reply : QueryResult),
    let d := processVoiceCommand env st now command reply in
    dispatched d = true ->
    classify (toLowerCase command) = StopSpeaking ->
    outcome d = Stopped
    /\ isSpeaking (state d) = false
    /\ isProcessing (state d) = false
    /\ isProcessingCommand (state d) = false
    /\ avatarState (state d) = Idle
    /\ stopSpeakingRef (state d) = None
    /\ (speechSynthesis env = true -> In SynthCancel (effects d))
    /\ (stopSpeakingRef st <> None -> In AudioPause (effects d)).
Proof.
  intros env st now command reply d Hd Hb. subst d.
  revert Hd. unfold processVoiceCommand.
  destruct (busy st); [discriminate|].
  destruct (String.eqb _ _); [discriminate|].
  destruct (_ && _ && _); [discriminate|].
  destruct (_ <? _); [discriminate|]. intros _. rewrite Hb.
  destruct st as [? lis ? ? ? ? ? proc ? ? pcmd ? ? ? stopRef ? ? ? ? ? ?].
  unfold stopSpeaking, speakOnEnd, idleIf, mayIdle, when.
  destruct stopRef as [[[|] [| |? [?|]]]|], lis, proc, pcmd,
           (onTranscript env), (onCommand env), (speechSynthesis env);
    cbn; repeat split; try reflexivity; try discriminate; try congruence;
    intros _; repeat (try (left; reflexivity); right).
Qed.

Lemma stop_command_leaves_session_idle_witness :
  let d := processVoiceCommand demoEnv connectedSession 1730000000000
             "please stop talking" QueryThrows in
  outcome d = Stopped
  /\ isSpeaking (state d) = false
  /\ isProcessing (state d) = false
  /\ isProcessingCommand (state d) = false
  /\ avatarState (state d) = Idle
  /\ stopSpeakingRef (state d) = None
  /\ (speechSynthesis demoEnv = true -> In SynthCancel (effects d))
  /\ (stopSpeakingRef connectedSession <> None -> In AudioPause (effects d)).
Proof.
  apply (stop_command_leaves_session_idle
           demoEnv connectedSession 1730000000000 "please stop talking"
           QueryThrows); vm_compute; reflexivity.
Defined.

(** X12.  The stop branch keeps the command in the debounce ref and, when
    there was no audio to stop, arms no timer, so nothing clears it:
    the same stop command is ignored at any later time by every session
    whose ref still holds it. *)
Theorem stop_command_stays_debounced :
  forall (env : Env) (st : Session) (now : Z) (command : string)
         (reply : QueryResult),
    let d := processVoiceCommand env st now command reply in
    dispatched d = true ->
    classify (toLowerCase command) = StopSpeaking ->
    lastProcessedCommand (state d) = trim (toLowerCase command)
    /\ (stopSpeakingRef st = None -> timers (effects d) = [])
    /\ forall (env' : Env) (st' : Session) (later : Z) (reply' : QueryResult),
        lastProcessedCommand st' = lastProcessedCommand (state d) ->
        exists why,
          processVoiceCommand env' st' later command reply' = ignored st' why.
Proof.
  intros env st now command reply d Hd Hb.
  assert (Hlast : lastProcessedCommand (state d) = trim (toLowerCase command)).
  { destruct (process_ignored_or_stamped env st now command reply)
      as [[why Hi]|(_ & _ & H)]; [|exact H].
    subst d. rewrite Hi in Hd. discriminate. }
  split; [exact Hlast|]. split.
  - intros Href. subst d. revert Hd. unfold processVoiceCommand.
    destruct (busy st); [discriminate|].
    destruct (String.eqb _ _); [discriminate|].
    destruct (_ && _ && _); [discriminate|].
    destruct (_ <? _); [discriminate|]. intros _. rewrite Hb.
    destruct st as [? lis ? ? ? ? ? proc ? ? pcmd ? ? ? stopRef ? ? ? ? ? ?].
    simpl in Href. subst stopRef.
    unfold stopSpeaking, idleIf, mayIdle, when.
    destruct lis, proc, pcmd, (onTranscript env), (speechSynthesis env);
      reflexivity.
  - intros env' st' later reply' Hsame. rewrite Hlast in Hsame.
    unfold processVoiceCommand.
    destruct (busy st'); [now exists Busy|].
    rewrite Hsame, String.eqb_refl. now exists SameCommand.
Qed.

Lemma stop_command_stays_debounced_witness :
  exists why,
    processVoiceCommand demoEnv
      (state (processVoiceCommand demoEnv connectedSession 1730000000000
                "stop talking" QueryThrows))
      1730000600000 "stop talking" QueryThrows
    = ignored
        (state (processVoiceCommand demoEnv connectedSession 1730000000000
                  "stop talking" QueryThrows))
        why.
Proof.
  refine (proj2 (proj2 (stop_command_stays_debounced
                          demoEnv connectedSession 1730000000000 "stop talking"
                          QueryThrows _ _)) _ _ _ _ _).
  - vm_compute. reflexivity.
  - vm_compute. reflexivity.
  - reflexivity.
Defined.

(** X13.  Every navigation a dispatched command asks for stays inside the
    tenant of the component: the target is [/t/<tenantId>] followed by
    one of the five pages, or by the contacts page with one of the four
    known names as search parameter. *)
Theorem navigation_stays_in_tenant :
  forall (env : Env) (st : Session) (now : Z) (command : string)
         (reply : QueryResult) (responseText url : string),
    outcome (processVoiceCommand env st now command reply)
    = Spoke responseText (Some url) ->
    exists path,
      url = ("/t/" ++ tenantId env ++ path)%string
      /\ In path ["/pipeline"; "/donations"; "/contacts"; "/calendar";
                  "/reports"; "/contacts?search=Jonathan";
                  "/contacts?search=Takua"; "/contacts?search=Hong";
                  "/contacts?search=Datz"].
Proof.
  intros env st now command reply responseText url Hout.
  assert (Hd : dispatched (processVoiceCommand env st now command reply) = true).
  { unfold dispatched. now rewrite Hout. }
  rewrite (process_dispatched_outcome env st now command reply Hd) in Hout.
  destruct (classify (toLowerCase command));
    cbn -[page String.append] in Hout;
    repeat match type of Hout with
           | context [match ?x with _ => _ end] =>
               destruct x; cbn -[page String.append] in Hout
           end;
    try discriminate; injection Hout as _ <-; unfold page;
    eexists; (split; [reflexivity|simpl; tauto]).
Qed.

Lemma navigation_stays_in_tenant_witness :
  exists path,
    "/t/tokyo-voice-ai/calendar" = ("/t/" ++ tenantId demoEnv ++ path)%string
    /\ In path ["/pipeline"; "/donations"; "/contacts"; "/calendar";
                "/reports"; "/contacts?search=Jonathan";
                "/contacts?search=Takua"; "/contacts?search=Hong";
                "/contacts?search=Datz"].
Proof.
  apply (navigation_stays_in_tenant
           demoEnv connectedSession 1730000000000 "what is on my schedule today"
           QueryThrows "Let's check your calendar!").
  vm_compute. reflexivity.
Defined.

(** ** The end of a speech output *)

Section SpeechEnd.

Variables (env : Env) (cl : Session).

(** An effect that does not restart recognition, and that arms the
    re-arming timer with 2000 ms if it arms it. *)
Let calm (e : Effect) : Prop :=
  e <> RecognitionStart
  /\ forall delay, e = SetTimeout RearmListening delay -> delay = 2000.

Lemma speakOnEnd_calm (onEnd : OnEnd) (s : Session) :
  Forall calm (snd (speakOnEnd env onEnd s))
  /\ In (SetTimeout RearmListening 2000) (snd (speakOnEnd env onEnd s)).
Proof.
  unfold speakOnEnd, when, calm.
  destruct onEnd as [| |? [?|]], (onCommand env); cbn;
    (split; [repeat constructor; try discriminate; intros ? [=]; congruence
            |repeat (try (left; reflexivity); right)]).
Qed.

Lemma fallbackSpeak_calm (s : Session) (text : string) (onEnd : OnEnd) :
  Forall calm (snd (fallbackSpeak env s text onEnd)).
Proof.
  unfold fallbackSpeak, calm. destruct (speechSynthesis env); cbn;
    repeat constructor; try discriminate.
Qed.

Lemma audioSignal_calm (text : string) (onEnd : OnEnd)
      (acc : Session * list Effect) (sig : AudioSignal) :
  Forall calm (snd acc) ->
  Forall calm (snd (audioSignal env cl text onEnd acc sig))
  /\ (forall e, In e (snd acc) ->
                In e (snd (audioSignal env cl text onEnd acc sig)))
  /\ (sig = Ended ->
      In (SetTimeout RearmListening 2000)
         (snd (audioSignal env cl text onEnd acc sig))).
Proof.
  destruct acc as [s fx]. intros Hfx. unfold audioSignal. destruct sig.
  - destruct (fallbackSpeak env s text onEnd) as [s' fx'] eqn:E. cbn [snd].
    pose proof (fallbackSpeak_calm s text onEnd) as H. rewrite E in H.
    split; [apply Forall_app; auto|]. split; [|discriminate].
    intros e He. apply in_or_app. now left.
  - destruct (fallbackSpeak env _ text onEnd) as [s' fx'] eqn:E. cbn [snd].
    match type of E with
    | fallbackSpeak _ ?s0 _ _ = _ =>
        pose proof (fallbackSpeak_calm s0 text onEnd) as H
    end.
    rewrite E in H.
    split; [apply Forall_app; auto|]. split; [|discriminate].
    intros e He. apply in_or_app. now left.
  - destruct (speakOnEnd env onEnd _) as [s' fx'] eqn:E. cbn [snd].
    match type of E with
    | speakOnEnd _ _ ?s0 = _ =>
        pose proof (speakOnEnd_calm onEnd s0) as [H1 H2]
    end.
    rewrite E in H1, H2. cbn [snd] in H1, H2.
    split; [|split].
    + apply Forall_app. split; [assumption|].
      constructor; [|assumption]. split; [discriminate|intros ? [=]].
    + intros e He. apply in_or_app. now left.
    + intros _. apply in_or_app. right. now right.
Qed.

Lemma audioSignals_calm (text : string) (onEnd : OnEnd)
      (signals : list AudioSignal) (acc : Session * list Effect) :
  Forall calm (snd acc) ->
  let r := fold_left (audioSignal env cl text onEnd) signals acc in
  Forall calm (snd r)
  /\ (forall e, In e (snd acc) -> In e (snd r))
  /\ (In Ended signals -> In (SetTimeout RearmListening 2000) (snd r)).
Proof.
  revert acc. induction signals as [|sig signals IH]; intros acc Hacc; cbn.
  - split; [assumption|]. split; [auto|intros []].
  - destruct (audioSignal_calm text onEnd acc sig Hacc) as (H1 & H2 & H3).
    destruct (IH _ H1) as (I1 & I2 & I3).
    split; [assumption|]. split; [auto|].
    intros [->|Hin]; [apply I2; now apply H3|now apply I3].
Qed.

Lemma speakWithOpenAI_calm (st : Session) (text : string) (onEnd : OnEnd)
      (outcome : HostedOutcome) :
  let fx := snd (speakWithOpenAI env cl st text onEnd outcome) in
  Forall calm fx
  /\ forall signals,
      outcome = TtsAudio signals -> In Ended signals ->
      In (SetTimeout RearmListening 2000) fx.
Proof.
  unfold speakWithOpenAI. destruct outcome as [| |signals].
  - split; [apply fallbackSpeak_calm|discriminate].
  - split; [apply fallbackSpeak_calm|discriminate].
  - match goal with
    | |- context [fold_left _ _ ?acc] =>
        destruct (audioSignals_calm text onEnd signals acc) as (H1 & _ & H3);
          [constructor|]
    end.
    split; [exact H1|]. intros ? [= <-]. exact H3.
Qed.

End SpeechEnd.

(** X14.  However a hosted synthesis goes and however the fallback
    utterance ends, the handlers of speech output do not start
    recognition themselves, and the only re-arming timer they set is
    one of 2000 ms.  That timer is armed when the audio ends and when
    the fallback utterance ends.  When it fires it looks at the render
    that called [speak], not at the session: it does nothing unless
    that render was connected, in ambient mode and not processing a
    command, and starts recognition if it was, whatever the session
    is doing by then. *)
Theorem speech_output_rearms_after_delay :
  forall (env : Env) (cl st : Session) (text : string) (onEnd : OnEnd),
    (forall outcome : HostedOutcome,
        let fx := snd (speakWithOpenAI env cl st text onEnd outcome) in
        ~ In RecognitionStart fx
        /\ (forall delay, In (SetTimeout RearmListening delay) fx -> delay = 2000)
        /\ (forall signals,
               outcome = TtsAudio signals -> In Ended signals ->
               In (SetTimeout RearmListening 2000) fx))
    /\ (forall ev : UtteranceEvent,
           let fx := snd (onUtterance env cl st onEnd ev) in
           ~ In RecognitionStart fx
           /\ (forall delay, In (SetTimeout RearmListening delay) fx -> delay = 2000)
           /\ (ev = UtteranceEnd -> In (SetTimeout RearmListening 2000) fx))
    /\ (forall (live : Session) (now : Z) (reply : QueryResult),
           (isConnected cl && isAmbientMode cl && negb (isProcessingCommand cl)
            = false ->
            runTask env cl live now RearmListening reply = (live, []))
           /\ (isConnected cl && isAmbientMode cl && negb (isProcessingCommand cl)
               = true ->
               speechRecognition env = true ->
               runTask env cl live now RearmListening reply
               = (setRecognitionRef true live, [RecognitionStart]))).
Proof.
  intros env cl st text onEnd. split; [|split].
  - intros outcome fx.
    destruct (speakWithOpenAI_calm env cl st text onEnd outcome) as [H1 H2].
    fold fx in H1, H2. rewrite Forall_forall in H1.
    split; [intros H; now apply (proj1 (H1 _ H))|].
    split; [intros delay H; now apply (proj2 (H1 _ H))|exact H2].
  - intros ev fx. subst fx. destruct ev; cbn [onUtterance snd].
    + split; [intros []|]. split; [intros ? []|discriminate].
    + destruct (speakOnEnd_calm env onEnd
                  (idleIf (mayIdle cl) (setIsSpeaking false st))) as [H1 H2].
      rewrite Forall_forall in H1.
      split; [intros H; now apply (proj1 (H1 _ H))|].
      split; [intros delay H; now apply (proj2 (H1 _ H))|intros _; exact H2].
    + split; [intros []|]. split; [intros ? []|discriminate].
  - intros live now reply. cbn [runTask]. split.
    + intros H. now rewrite H.
    + intros H Hrec. rewrite H. unfold startAmbientListening. now rewrite Hrec.
Qed.

Lemma speech_output_rearms_after_delay_witness :
  In (SetTimeout RearmListening 2000)
     (snd (speakWithOpenAI demoEnv connectedSession connectedSession "Hello"
             NoCallback (TtsAudio [Ended])))
  /\ runTask demoEnv connectedSession
             (setIsProcessingCommand true connectedSession) 1730000002000
             RearmListening QueryThrows
     = (setRecognitionRef true (setIsProcessingCommand true connectedSession),
        [RecognitionStart]).
Proof.
  split.
  - refine (proj2 (proj2 (proj1 (speech_output_rearms_after_delay
                                   demoEnv connectedSession connectedSession
                                   "Hello" NoCallback)
                                (TtsAudio [Ended]))) [Ended] _ _).
    + reflexivity.
    + simpl. left. reflexivity.
  - refine (proj2 (proj2 (proj2 (speech_output_rearms_after_delay
                                   demoEnv connectedSession connectedSession
                                   "Hello" NoCallback))
                         (setIsProcessingCommand true connectedSession)
                         1730000002000 QueryThrows) _ _).
    + reflexivity.
    + reflexivity.
Defined.

(** ** A command from dispatch to the next dispatch *)

Section Cycle.

Variables (env : Env) (cl : Session).


(** When the hosted synthesis fails and the fallback utterance fails
    too, the processing flags of the command stay set. *)
Lemma failed_speech_state (s : Session) (text : string) (k : OnEnd)
      (outcome : HostedOutcome) :
  outcome = TtsFetchThrows \/ (exists status, outcome = TtsNotOk status) ->
  isProcessingCommand s = true ->
  isProcessing s = true ->
  let r := speakWithOpenAI env cl s text k outcome in
  isProcessingCommand (fst r) = true
  /\ timers (snd r) = []
  /\ onUtterance env cl (fst r) k UtteranceError
     = (idleIf (mayIdle cl) (setIsSpeaking false (fst r)), [])
  /\ isProcessingCommand (fst (onUtterance env cl (fst r) k UtteranceError))
     = true
  /\ isProcessing (fst r) = true
  /\ isProcessing (fst (onUtterance env cl (fst r) k UtteranceError)) = true.
Proof.
  intros Hout Hs Hp.
  assert (E : speakWithOpenAI env cl s text k outcome
              = fallbackSpeak env s text k).
  { destruct Hout as [->|[status ->]]; reflexivity. }
  cbv zeta. rewrite E. clear E Hout. unfold fallbackSpeak.
  destruct s, (speechSynthesis env); cbn in Hs, Hp |- *;
    repeat split; try reflexivity; destruct (mayIdle cl); assumption.
Qed.

End Cycle.



(** X16.  When the hosted synthesis of a command's answer fails and the
    fallback utterance fails as well - or the browser has no
    synthesiser to fall back to - the callback of the command never
    runs: no timer is armed, and [isProcessing] and
    [isProcessingCommand] stay set in the session.  Had the utterance
    ended instead, no flag of the session would be left set. *)
Theorem failed_fallback_leaves_flags_set :
  forall (env : Env) (cl st : Session) (now : Z) (command text : string)
         (k : OnEnd) (reply : QueryResult) (outcome : HostedOutcome),
    let d := processVoiceCommand env st now command reply in
    dispatched d = true ->
    In (text, k) (hostedRequests (effects d)) ->
    outcome = TtsFetchThrows \/ (exists status, outcome = TtsNotOk status) ->
    let failed := speakWithOpenAI env cl (state d) text k outcome in
    let silent := onUtterance env cl (fst failed) k UtteranceError in
    timers (snd failed) = [] /\ snd silent = []
    /\ (isProcessingCommand (fst failed) = true
        /\ isProcessing (fst failed) = true
        /\ isProcessingCommand (fst silent) = true
        /\ isProcessing (fst silent) = true)
    /\ busy (fst (onUtterance env cl (fst failed) k UtteranceEnd)) = false.
Proof.
  intros env cl st now command text k reply outcome d Hd Hin Hout failed silent.
  destruct (dispatch_requests env st now command reply Hd) as (Hh & _ & Hf).
  fold d in Hh, Hf. rewrite Hh in Hin.
  destruct Hf as [Hf|[Hp Hf]]; [rewrite Hf in Hin; contradiction|].
  assert (Hk : k <> NoCallback).
  { destruct (Voice.outcome d) as [| |responseText nav]; try contradiction.
    destruct Hin as [Hin|[]]. injection Hin as _ <-.
    destruct (remoteQuery _); discriminate. }
  destruct (failed_speech_state env cl (state d) text k outcome Hout Hf Hp)
    as (H1 & H2 & H3 & H4 & H5 & H6).
  fold failed in H1, H2, H3, H4, H5, H6. fold silent in H3, H4, H6.
  split; [exact H2|]. split; [now rewrite H3|]. split.
  - auto.
  - clear - Hk. unfold onUtterance, speakOnEnd, idleIf, busy.
    destruct (fst failed), k as [| |? [?|]], (mayIdle cl); try congruence;
      reflexivity.
Qed.

Lemma failed_fallback_leaves_flags_set_witness :
  let d := processVoiceCommand demoEnv connectedSession 1730000000000
             "show me the sales pipeline" QueryThrows in
  let failed :=
    speakWithOpenAI demoEnv connectedSession (state d)
      "Let me show you the sales pipeline!"
      (CommandDone "show me the sales pipeline"
                   (Some "/t/tokyo-voice-ai/pipeline"))
      (TtsNotOk 503) in
  timers (snd failed) = [].
Proof.
  refine (proj1 (failed_fallback_leaves_flags_set
                   demoEnv connectedSession connectedSession 1730000000000
                   "show me the sales pipeline"
                   "Let me show you the sales pipeline!"
                   (CommandDone "show me the sales pipeline"
                                (Some "/t/tokyo-voice-ai/pipeline"))
                   QueryThrows (TtsNotOk 503) _ _ _)).
  - vm_compute. reflexivity.
  - vm_compute. left. reflexivity.
  - right. exists 503. reflexivity.
Defined.

(** ** Disconnecting twice *)

(** X17.  After the user's disconnect the session is at rest: a second
    disconnect, or the [Disconnected] event the provider then sends,
    changes nothing and asks nothing of the browser. *)
Theorem disconnect_is_idempotent :
  forall st : Session,
    let rest := fst (disconnectFromRoom st) in
    disconnectFromRoom rest = (rest, [])
    /\ onDisconnected rest = (rest, [])
    /\ stopAmbientListening rest rest = (rest, [])
    /\ cleanupAudioMonitoring rest = (rest, []).
Proof.
  intros st.
  destruct st as [? ? ? ? ? ? ? proc ? ? ? ? ? ? ? room ? rec actx ? frame].
  unfold disconnectFromRoom, onDisconnected, cleanupAudioMonitoring,
    stopAmbientListening, idleIf.
  destruct proc, room, rec, actx, frame; cbn; repeat split; reflexivity.
Qed.

(** ** The ambient toggle and speech capture *)

(** X19.  Turning ambient listening on starts recognition and stops it again
    at once for the announcement.  Turning it off stops recognition and
    leaves ambient mode; but with no recognition object to stop, the
    announcement is made while the session stays in ambient mode. *)
Theorem toggle_ambient_mode_cases :
  forall (env : Env) (st : Session),
    (isAmbientMode st = false -> speechRecognition env = true ->
     toggleAmbientMode env st
     = (setRecognitionRef true (setIsAmbientMode true st),
        [RecognitionStart; RecognitionStop;
         HostedTts "I'm now listening ambiently! Just say what you need - like 'show me sales funnel' or 'find Jonathan'!"
                   NoCallback]))
    /\ (isAmbientMode st = true -> recognitionRef st = true ->
        isAmbientMode (fst (toggleAmbientMode env st)) = false
        /\ recognitionRef (fst (toggleAmbientMode env st)) = false
        /\ snd (toggleAmbientMode env st)
           = [RecognitionStop;
              HostedTts "I've stopped listening. Click the button to start ambient listening again!"
                        NoCallback])
    /\ (isAmbientMode st = true -> recognitionRef st = false ->
        toggleAmbientMode env st
        = (st,
           [HostedTts "I've stopped listening. Click the button to start ambient listening again!"
                      NoCallback])).
Proof.
  intros env st. unfold toggleAmbientMode, startAmbientListening,
    stopAmbientListening, speak, idleIf, when.
  split; [|split].
  - intros H1 H2. rewrite H1, H2. now destruct st.
  - intros H1 H2. rewrite H1, H2.
    destruct st, (negb _); cbn in *; repeat split; reflexivity.
  - intros H1 H2. rewrite H1, H2. cbn. now rewrite H2.
Qed.

Lemma toggle_ambient_mode_cases_witness :
  toggleAmbientMode demoEnv (setRecognitionRef false connectedSession)
  = (setRecognitionRef false connectedSession,
     [HostedTts "I've stopped listening. Click the button to start ambient listening again!"
                NoCallback]).
Proof.
  apply (proj2 (proj2 (toggle_ambient_mode_cases
                         demoEnv (setRecognitionRef false connectedSession))));
    reflexivity.
Defined.

(** X20.  Whatever speech capture emits carries the final transcript as it
    was recognised, and only when that transcript passed every filter:
    at least 5 characters once trimmed, not a noise word, a last result
    of sufficient confidence, and either a space in it or at least 8
    characters.  It publishes only with a room, and schedules the
    dispatcher only if none of the three flags was set in the render
    that started the recogniser. *)
Theorem capture_emits_only_clean_transcripts :
  forall (cl st : Session) (now : Z) (event : RecognitionEvent) (e : Effect),
    In e (snd (onresult cl st now event)) ->
    let finalTranscript :=
      collect true (skipn (resultIndex event) (results event)) in
    let lowerTranscript := toLowerCase (trim finalTranscript) in
    ((e = PublishData finalTranscript now /\ roomRef st = true)
     \/ (e = SetTimeout (ProcessCommand finalTranscript) 500 /\ busy cl = false))
    /\ (5 <= String.length (trim finalTranscript))%nat
    /\ lowConfidence (results event) = false
    /\ ~ In lowerTranscript noisePatterns
    /\ (List.length (split " " lowerTranscript) <> 1%nat
        \/ (8 <= String.length lowerTranscript)%nat)
    /\ transcript (fst (onresult cl st now event)) = finalTranscript.
Proof.
  intros cl st now event e Hin finalTranscript lowerTranscript.
  revert Hin. unfold onresult. fold finalTranscript. fold lowerTranscript.
  destruct (negb (nonEmpty finalTranscript)); [intros []|].
  destruct (String.length (trim finalTranscript) <? 5)%nat eqn:Hlen; [intros []|].
  destruct (lowConfidence (results event)); [intros []|].
  destruct (arrayIncludes lowerTranscript noisePatterns) eqn:Hnoise; [intros []|].
  destruct ((List.length (split " " lowerTranscript) =? 1)%nat
            && (String.length lowerTranscript <? 8)%nat) eqn:Hword; [intros []|].
  cbn [snd fst]. intros Hin. split; [|split; [|split; [|split; [|split]]]].
  - apply in_app_or in Hin. unfold when in Hin.
    destruct Hin as [Hin|Hin].
    + destruct (roomRef st); [|contradiction].
      destruct Hin as [<-|[]]. now left.
    + destruct (busy cl); [contradiction|].
      destruct Hin as [<-|[]]. now right.
  - apply Nat.ltb_ge in Hlen. exact Hlen.
  - reflexivity.
  - intros H. apply arrayIncludes_In in H. congruence.
  - apply andb_false_iff in Hword. destruct Hword as [H|H].
    + left. now apply Nat.eqb_neq in H.
    + right. now apply Nat.ltb_ge in H.
  - destruct (nonEmpty _), st; reflexivity.
Qed.

Lemma capture_emits_only_clean_transcripts_witness :
  (5 <= String.length (trim "show me the pipeline"))%nat.
Proof.
  refine (proj1 (proj2 (capture_emits_only_clean_transcripts
                          initialSession connectedSession 1730000000000
                          (finalResult "show me the pipeline" (Some (9 # 10)))
                          (PublishData "show me the pipeline" 1730000000000)
                          _))).
  vm_compute. left. reflexivity.
Defined.

(** ** The assistant and the routes together *)

Section EndToEnd.

Lemma dispatched_command_nonempty (env : Env) (st : Session) (now : Z)
      (command : string) (reply : QueryResult) :
  dispatched (processVoiceCommand env st now command reply) = true ->
  command <> EmptyString.
Proof.
  intros Hd ->. apply dispatched_guards in Hd.
  destruct Hd as (_ & _ & H & _). discriminate.
Qed.

Lemma biggestDonation_of_fixture (slug : string) :
  exists top,
    Donations.biggestDonation (Donations.mockDonations slug) = Some top
    /\ In (Donations.contact top) ["Alex.Inc (Sponsor)"; "Alice Brown"].
Proof.
  unfold Donations.mockDonations. destruct (String.eqb slug "tokyo-voice-ai").
  - eexists. split; [vm_compute; reflexivity|simpl; tauto].
  - eexists. split; [vm_compute; reflexivity|simpl; tauto].
Qed.

End EndToEnd.

(** X21.  A dispatched donation-advice or general-question command, answered
    by its route: the route never rejects the query, since a
    dispatched command is not empty; when the upstream API answers,
    the assistant speaks the route's answer - the upstream text, or the
    route's own fallback sentence for an empty one; when the upstream
    call fails, the route answers 500 and the assistant speaks its
    apology for that kind of query.  It does not navigate. *)
Theorem proxy_answer_is_spoken :
  forall (env : Env) (st : Session) (now : Z) (command : string)
         (upstream : Mood.Upstream) (route : Chat.Route) (b : Branch),
    (route = Chat.donationAdvice /\ b = DonationAdvice)
    \/ (route = Chat.generalQuestion /\ b = GeneralQuestion) ->
    classify (toLowerCase command) = b ->
    let r := fst (Chat.POST route (Mood.Body (Some command)) upstream) in
    let d := processVoiceCommand env st now command (Wiring.replyOf r) in
    dispatched d = true ->
    Mood.status r <> 400
    /\ ((exists content, upstream = Mood.Completion content) ->
        exists answer,
          answer <> EmptyString /\ r = Mood.ok answer command
          /\ outcome d = Spoke answer None)
    /\ ((forall content, upstream <> Mood.Completion content) ->
        Mood.status r = 500
        /\ exists url notOkText throwsText,
            remoteQuery b = Some (url, notOkText, throwsText)
            /\ outcome d = Spoke notOkText None).
Proof.
  intros env st now command upstream route b Hroute Hb r d Hd.
  pose proof (dispatched_command_nonempty env st now command _ Hd) as Hne.
  pose proof (process_dispatched_outcome env st now command _ Hd) as Ho.
  fold d in Ho. rewrite Hb in Ho.
  assert (Hfb : Chat.fallbackAnswer route <> EmptyString).
  { destruct Hroute as [[-> _]|[-> _]]; discriminate. }
  destruct command as [|c q]; [congruence|].
  subst r. split; [|split].
  - destruct upstream as [| | |[[|? ?]|]]; cbn; discriminate.
  - intros [content ->].
    destruct content as [[|x content]|];
      [exists (Chat.fallbackAnswer route)|exists (String x content)
      |exists (Chat.fallbackAnswer route)];
      (split; [assumption || discriminate|]); (split; [reflexivity|]);
      rewrite Ho; destruct Hroute as [[-> ->]|[-> ->]]; reflexivity.
  - intros Hno.
    assert (E : fst (Chat.POST route (Mood.Body (Some (String c q))) upstream)
                = {| Mood.status := 500;
                     Mood.body := Mood.Error (Chat.failureError route) |}).
    { destruct upstream as [| | |content]; try reflexivity.
      exfalso. now apply (Hno content). }
    rewrite E in Ho |- *. split; [reflexivity|].
    destruct Hroute as [[-> ->]|[-> ->]];
      (do 3 eexists; split; [reflexivity|exact Ho]).
Qed.

Lemma proxy_answer_is_spoken_witness :
  let r := fst (Chat.POST Chat.generalQuestion
                  (Mood.Body (Some "explain voice agents"))
                  (Mood.Completion (Some "They listen and answer."))) in
  exists answer,
    answer <> EmptyString /\ r = Mood.ok answer "explain voice agents"
    /\ outcome (processVoiceCommand demoEnv connectedSession 1730000000000
                  "explain voice agents" (Wiring.replyOf r))
       = Spoke answer None.
Proof.
  refine (proj1 (proj2 (proxy_answer_is_spoken
                          demoEnv connectedSession 1730000000000
                          "explain voice agents"
                          (Mood.Completion (Some "They listen and answer."))
                          Chat.generalQuestion GeneralQuestion _ _ _)) _).
  - right. split; reflexivity.
  - vm_compute. reflexivity.
  - vm_compute. reflexivity.
  - eexists. reflexivity.
Defined.

(** X22.  Whenever the speech proxy does not return audio - the text is
    empty, the API key is not configured, or the upstream call fails -
    the assistant sees a failure status and enters the browser fallback
    exactly once for that text, queueing one utterance where the
    browser can speak and starting no further hosted synthesis. *)
Theorem speech_proxy_failure_falls_back_once :
  forall (env : Env) (cl st : Session) (text : string) (onEnd : OnEnd)
         (apiKey : option string) (upstream : Tts.Upstream)
         (signals : list AudioSignal),
    text = EmptyString \/ Tts.keyMissing apiKey = true
    \/ (forall bytes, upstream <> Tts.Audio bytes) ->
    let r := fst (Tts.POST apiKey (Wiring.ttsRequest text) upstream) in
    let fx := snd (speakWithOpenAI env cl st text onEnd
                     (Wiring.hostedOutcomeOf r signals)) in
    In (Tts.status r) [400; 500; 503]
    /\ fallbackCalls fx = 1%nat
    /\ (speechSynthesis env = true -> synthQueue fx = [text])
    /\ hostedRequests fx = [].
Proof.
  intros env cl st text onEnd apiKey upstream signals Hcause r fx.
  assert (Hr : exists status,
             In status [400; 500; 503]
             /\ Tts.status r = status
             /\ Wiring.hostedOutcomeOf r signals = TtsNotOk status).
  { subst r. unfold Wiring.ttsRequest, Tts.POST.
    destruct text as [|c t].
    - exists 400. cbn. tauto.
    - destruct (Tts.keyMissing apiKey).
      + exists 503. cbn. tauto.
      + destruct Hcause as [H|[H|H]]; try discriminate.
        destruct upstream as [| |bytes]; [| |exfalso; now apply (H bytes)];
          exists 500; cbn; tauto. }
  destruct Hr as (status & Hin & Hs & Ho). subst fx. rewrite Ho, Hs.
  split; [exact Hin|].
  destruct (single_failure_falls_back_once env cl st text onEnd (TtsNotOk status))
    as [H1 H2]; [right; left; now exists status|].
  split; [exact H1|]. split; [exact H2|].
  cbn [speakWithOpenAI]. unfold fallbackSpeak.
  destruct (speechSynthesis env); reflexivity.
Qed.

Lemma speech_proxy_failure_falls_back_once_witness :
  fallbackCalls
    (snd (speakWithOpenAI demoEnv connectedSession connectedSession "Hello"
            NoCallback
            (Wiring.hostedOutcomeOf
               (fst (Tts.POST None (Wiring.ttsRequest "Hello") (Tts.Audio [])))
               [Ended])))
  = 1%nat.
Proof.
  refine (proj1 (proj2 (speech_proxy_failure_falls_back_once
                          demoEnv connectedSession connectedSession "Hello"
                          NoCallback None (Tts.Audio []) [Ended] _))).
  right. left. reflexivity.
Defined.

(** X23.  Once a donations page has been visited, a dispatched question
    about the biggest donor that does not mention the quarter is
    answered from what that page left in the global cache: the contact,
    the amount and the date of the first largest donation of the page's
    list - whichever tenant the assistant itself belongs to. *)
Theorem page_visit_feeds_inline_answer :
  forall (env : Env) (st : Session) (now : Z) (command : string)
         (reply : QueryResult) (slug : string)
         (previous : option DonationInfo),
    biggestDonationInfo env = Donations.visit true slug previous ->
    classify (toLowerCase command) = BiggestDonor ->
    dispatched (processVoiceCommand env st now command reply) = true ->
    exists top,
      Donations.biggestDonation (Donations.mockDonations slug) = Some top
      /\ In (Donations.contact top) ["Alex.Inc (Sponsor)"; "Alice Brown"]
      /\ outcome (processVoiceCommand env st now command reply)
         = Spoke ("The biggest donor is " ++ Donations.contact top
                    ++ " with $" ++ toLocaleString (Donations.amount top)
                    ++ " donated on " ++ Donations.date top ++ "!")%string
                 None.
Proof.
  intros env st now command reply slug previous Hcache Hb Hd.
  destruct (biggestDonation_of_fixture slug) as (top & Htop & Hcontact).
  exists top. split; [exact Htop|]. split; [exact Hcontact|].
  unfold Donations.visit in Hcache. rewrite Htop in Hcache.
  rewrite (process_dispatched_outcome env st now command reply Hd), Hb.
  cbn -[localResponse].
  now rewrite (biggest_donor_inline_answer env _ _ Hb Hcache).
Qed.

Lemma page_visit_feeds_inline_answer_witness :
  exists top,
    Donations.biggestDonation (Donations.mockDonations "tokyo-voice-ai")
    = Some top
    /\ In (Donations.contact top) ["Alex.Inc (Sponsor)"; "Alice Brown"]
    /\ outcome (processVoiceCommand
                  {| tenantId := "makelit"; onTranscript := false;
                     onCommand := false;
                     biggestDonationInfo :=
                       Donations.visit true "tokyo-voice-ai" None;
                     speechSynthesis := true; speechRecognition := true |}
                  connectedSession 1730000000000 "who is our top donor"
                  QueryThrows)
       = Spoke ("The biggest donor is " ++ Donations.contact top
                  ++ " with $" ++ toLocaleString (Donations.amount top)
                  ++ " donated on " ++ Donations.date top ++ "!")%string
               None.
Proof.
  apply (page_visit_feeds_inline_answer
           {| tenantId := "makelit"; onTranscript := false;
              onCommand := false;
              biggestDonationInfo := Donations.visit true "tokyo-voice-ai" None;
              speechSynthesis := true; speechRecognition := true |}
           connectedSession 1730000000000 "who is our top donor" QueryThrows
           "tokyo-voice-ai" None).
  - reflexivity.
  - vm_compute. reflexivity.
  - vm_compute. reflexivity.
Defined.
